(** * Risk-management gateway: a shallow embedding of the TypeScript sources

    The development follows the repository's modules:

    - [Js]        JavaScript values, truthiness, [??], [String.prototype.includes]
    - [NodeCache] the TTL store behind [microservice/cache.ts]
    - [Risk]      [lib/risk.ts]: [getAutoLiqSettings], [setAutoLiqSettings]
    - [Routes]    [microservice/routes.ts]: the GET and POST risk handlers
    - [Resolver]  [firebase.ts], [supabase.ts] and the two auth middlewares

    Handlers run in a state-and-exception monad over the process state
    (the cache, a log of the downstream calls issued) and an abstract
    downstream world.  [console.log] output is not part of the model. *)

From Stdlib Require Import ZArith String Ascii List Bool Lia DecimalString DecimalZ.
From stdpp Require Import base option gmap strings list fin_maps.

Local Open Scope string_scope.
Local Open Scope Z_scope.

(** ** JavaScript values *)

Module Js.

(** JSON-shaped values.  Numbers are the integers of the domain
    (identifiers, amounts); [NaN] cannot come out of a JSON body. *)
#[warnings="-register-all"] Inductive JsVal : Type :=
| VUndefined
| VNull
| VBool (b : bool)
| VNum (n : Z)
| VStr (s : string)
| VArr (items : list JsVal)
| VObj (fields : list (string * JsVal)).

(** A top-level object used as a record: keys to values. *)
Abbreviation JsObj := (gmap string JsVal).

(** [o[k]]: reading an absent property gives [undefined]. *)
Definition getProp (o : JsObj) (k : string) : JsVal :=
  default VUndefined (o !! k).

(** [ToBoolean]. *)
Definition truthy (v : JsVal) : bool :=
  match v with
  | VUndefined | VNull => false
  | VBool b => b
  | VNum n => negb (n =? 0)
  | VStr s => negb (String.eqb s "")
  | VArr _ | VObj _ => true
  end.

(** [v != null]: neither [null] nor [undefined]. *)
Definition notNullish (v : JsVal) : bool :=
  match v with
  | VUndefined | VNull => false
  | _ => true
  end.

(** An optional string used as a condition ([if (x)], [!x]): present
    and non-empty. *)
Definition truthyText (o : option string) : bool :=
  match o with
  | Some s => negb (String.eqb s "")
  | None => false
  end.

(** [a ?? b] on an optional (possibly undefined) operand. *)
Definition nullish {A} (a : option A) (b : option A) : option A :=
  match a with
  | Some _ => a
  | None => b
  end.

(** [{ ...a, ...b }]: the entries of [b] override those of [a]. *)
Definition spread2 (a b : JsObj) : JsObj := b ∪ a.

(** [String(n)] for an integer. *)
Definition String_of (n : Z) : string :=
  NilZero.string_of_int (Z.to_int n).

(** [s.includes(sub)]. *)
Fixpoint includes (s sub : string) : bool :=
  String.prefix sub s
  || match s with
     | EmptyString => false
     | String _ s' => includes s' sub
     end.

(** [s.startsWith(p)]. *)
Definition startsWith (s p : string) : bool := String.prefix p s.

(** [s.endsWith(p)]. *)
Definition endsWith (s p : string) : bool :=
  let n := String.length s in
  let k := String.length p in
  (k <=? n)%nat && String.eqb (String.substring (n - k) k s) p.

(** [s.slice(k)] for [0 <= k]. *)
Definition slice (s : string) (k : nat) : string :=
  String.substring k (String.length s - k) s.

(** A value thrown by a callee: an [Error] carrying a message, or
    anything else. *)
Inductive Thrown : Type :=
| ThrownError (message : string)
| ThrownOther.

(** [err instanceof Error ? err.message : dflt]. *)
Definition messageOr (dflt : string) (err : Thrown) : string :=
  match err with
  | ThrownError m => m
  | ThrownOther => dflt
  end.

End Js.
Export Js.

(** ** The authorized client *)

(** Modelled from the spec: the client class of [lib/auth], which is not
    among the sources.  It binds exactly one delegated credential, a base
    URL and a token; its [get] and [post] are the downstream calls taken
    as parameters below. *)

Record TradovateAuth : Type := fromToken {
  baseUrl : string;
  accessToken : string
}.

(** ** node-cache, as configured in [microservice/cache.ts]

    The library is a dependency of the repository; what is embedded here
    is what its [get], [set] and [del] do under the options the module
    passes ([stdTTL: 3600], default [deleteOnExpire]).  Expiry times are
    in milliseconds, as [Date.now()] is. *)

Module NodeCache.

Record Entry : Type := mkEntry {
  v : JsObj;   (* the stored value *)
  t : Z        (* the time after which it is expired *)
}.

Abbreviation Store := (gmap string Entry).

Definition stdTTL : Z := 3600.

(** [_check]: an entry is dead once [t < Date.now()]. *)
Definition expired (now : Z) (e : Entry) : bool := t e <? now.

(** [cache.get(key)]: a live entry's value; an expired entry is deleted
    and reported as absent. *)
Definition get (now : Z) (key : string) (c : Store) : option JsObj * Store :=
  match c !! key with
  | Some e => if expired now e then (None, delete key c) else (Some (v e), c)
  | None => (None, c)
  end.

(** [cache.set(key, value)]: store with the standard TTL. *)
Definition set (now : Z) (key : string) (value : JsObj) (c : Store) : Store :=
  <[ key := mkEntry value (now + stdTTL * 1000) ]> c.

(** [cache.del(key)]. *)
Definition del (key : string) (c : Store) : Store := delete key c.

End NodeCache.

(** ** Process state and the handler monad *)

(** One downstream request, as logged when it is issued. *)
Inductive Call : Type :=
| CallGet (auth : TradovateAuth) (path : string) (query : JsObj)
| CallPost (auth : TradovateAuth) (path : string) (body : JsObj).

(** [UpdateUserAutoLiqResponse] of [lib/risk.ts]; [None] is an absent
    (undefined) property. *)
Record UpdateUserAutoLiqResponse : Type := mkUpdateResponse {
  errorText : option string;
  userAccountAutoLiq : option JsObj;
  permissionedAccountAutoLiq : option JsObj
}.

(** What a call produced: a value, or a thrown exception. *)
Inductive Outcome (A : Type) : Type :=
| Returned (a : A)
| Threw (err : Thrown).
Arguments Returned {A} a.
Arguments Threw {A} err.

(** The body of a response, one constructor per envelope the handlers
    build. *)
Inductive Payload : Type :=
| RiskGetOk (autoLiq : option JsObj) (cached : bool)
    (* { success: true, autoLiq, cached } *)
| RiskSetOk (autoLiq : JsObj)
    (* { success: true, autoLiq } *)
| Failure (error : string) (code : option string).
    (* { success: false, error, code? } *)

Record Response : Type := mkResponse {
  statusCode : Z;
  payload : Payload
}.

(** A handler's plain [return body] answers 200. *)
Definition ok (p : Payload) : Response := mkResponse 200 p.

Module Gateway.

Section Downstream.

(** The downstream API and the clock are outside the repository: any
    world will do, with [Date.now()] read off it and each HTTP call a
    transition of it. *)
Context {World : Type}.
Variable Date_now : World -> Z.
Variable http_get :
  TradovateAuth -> string -> JsObj -> World -> Outcome (list JsObj) * World.
Variable http_post :
  TradovateAuth -> string -> JsObj -> World ->
  Outcome UpdateUserAutoLiqResponse * World.

Record State : Type := mkState {
  world : World;
  cache : NodeCache.Store;
  calls : list Call
}.

Definition M (A : Type) : Type := State -> Outcome A * State.

Definition ret {A} (a : A) : M A := fun s => (Returned a, s).

Definition throw {A} (err : Thrown) : M A := fun s => (Threw err, s).

Definition bind {A B} (m : M A) (k : A -> M B) : M B :=
  fun s =>
    match m s with
    | (Returned a, s') => k a s'
    | (Threw err, s') => (Threw err, s')
    end.

(** [try { m } catch (err) { h err }]. *)
Definition try_catch {A} (m : M A) (h : Thrown -> M A) : M A :=
  fun s =>
    match m s with
    | (Returned a, s') => (Returned a, s')
    | (Threw err, s') => h err s'
    end.

Notation "'let!' x ':=' m 'in' k" := (bind m (fun x => k))
  (at level 10, x name, m at level 100, k at level 200).
Notation "m ';;;' k" := (bind m (fun _ => k))
  (at level 100, k at level 200, right associativity).

(** [auth.get(path, query)]: the call is logged, the world moves. *)
Definition auth_get (auth : TradovateAuth) (path : string) (query : JsObj)
  : M (list JsObj) :=
  fun s =>
    let '(r, w) := http_get auth path query (world s) in
    (r, mkState w (cache s) (calls s ++ [CallGet auth path query])).

(** [auth.post(path, body)]. *)
Definition auth_post (auth : TradovateAuth) (path : string) (body : JsObj)
  : M UpdateUserAutoLiqResponse :=
  fun s =>
    let '(r, w) := http_post auth path body (world s) in
    (r, mkState w (cache s) (calls s ++ [CallPost auth path body])).

(** *** [microservice/cache.ts] *)

Definition riskKey (accountId : Z) : string := "risk:" ++ String_of accountId.

Definition getCachedRisk (accountId : Z) : M (option JsObj) :=
  fun s =>
    let '(r, c) := NodeCache.get (Date_now (world s)) (riskKey accountId) (cache s) in
    (Returned r, mkState (world s) c (calls s)).

Definition setCachedRisk (accountId : Z) (settings : JsObj) : M unit :=
  fun s =>
    (Returned tt,
     mkState (world s)
       (NodeCache.set (Date_now (world s)) (riskKey accountId) settings (cache s))
       (calls s)).

Definition invalidateCachedRisk (accountId : Z) : M unit :=
  fun s =>
    (Returned tt,
     mkState (world s) (NodeCache.del (riskKey accountId) (cache s)) (calls s)).

(** *** [lib/risk.ts] *)

(** The test both [catch] blocks of [getAutoLiqSettings] apply to decide
    that a failure means "this role is denied". *)
Definition isDenied (err : Thrown) : bool :=
  let msg := messageOr "" err in
  includes msg "401" || includes msg "Access is denied".

(** One guarded lookup: a denied failure leaves the initial [[]]. *)
Definition depsOrEmpty (auth : TradovateAuth) (path : string) (accountId : Z)
  : M (list JsObj) :=
  try_catch
    (auth_get auth path {[ "masterid" := VStr (String_of accountId) ]})
    (fun err => if negb (isDenied err) then throw err else ret []).

(** [xs[0] ?? {}]. *)
Definition firstOrEmpty (xs : list JsObj) : JsObj := default ∅ (head xs).

(** The merge step that ends [getAutoLiqSettings]: permissioned data
    first, owner data laid over it; nothing when neither carries an id. *)
Definition mergeSettings (userAutoLiq permAutoLiq : list JsObj) : list JsObj :=
  let perm := firstOrEmpty permAutoLiq in
  let user := firstOrEmpty userAutoLiq in
  let merged := spread2 perm user in
  if negb (truthy (getProp perm "id")) && negb (truthy (getProp user "id"))
  then []
  else [merged].

Definition getAutoLiqSettings (auth : TradovateAuth) (accountId : Z)
  : M (list JsObj) :=
  let! userAutoLiq := depsOrEmpty auth "/userAccountAutoLiq/deps" accountId in
  let! permAutoLiq := depsOrEmpty auth "/permissionedAccountAutoLiq/deps" accountId in
  ret (mergeSettings userAutoLiq permAutoLiq).

(** [{ accountId, ...settings }]. *)
Definition updateBody (accountId : Z) (settings : JsObj) : JsObj :=
  spread2 {[ "accountId" := VNum accountId ]} settings.

Definition setAutoLiqSettings (auth : TradovateAuth) (accountId : Z)
    (settings : JsObj) : M JsObj :=
  let body := updateBody accountId settings in
  let! result := auth_post auth "/userAccountAutoLiq/updateuserautoliq" body in
  if truthyText (errorText result) then
    throw (ThrownError
             ("Failed to set auto-liq for account " ++ String_of accountId
              ++ ": " ++ default "" (errorText result)))
  else
    match nullish (userAccountAutoLiq result) (permissionedAccountAutoLiq result) with
    | None =>
        throw (ThrownError
                 ("No auto-liq entity returned for account " ++ String_of accountId))
    | Some autoLiq => ret autoLiq
    end.

(** *** [microservice/routes.ts]: the risk handlers *)

Definition tokenExpired : Response :=
  mkResponse 401
    (Failure "Tradovate token expired. Please reconnect." (Some "TOKEN_EXPIRED")).

(** GET /risk-management/risk/{accountId} *)
Definition getRiskHandler (auth : TradovateAuth) (accountId : Z) : M Response :=
  try_catch
    (let! cached := getCachedRisk accountId in
     match cached with
     | Some settings => ret (ok (RiskGetOk (Some settings) true))
     | None =>
         let! settings := getAutoLiqSettings auth accountId in
         let autoLiq := head settings in
         match autoLiq with
         | Some a => setCachedRisk accountId a
         | None => ret tt
         end ;;;
         ret (ok (RiskGetOk autoLiq false))
     end)
    (fun error =>
       let message := messageOr "Unknown error" error in
       if includes message "401" || includes message "Access is denied"
       then ret tokenExpired
       else ret (mkResponse 500 (Failure message None))).

Definition allowedFields : list string :=
  [ "dailyLossAutoLiq";
    "dailyProfitAutoLiq";
    "weeklyLossAutoLiq";
    "weeklyProfitAutoLiq";
    "dailyLossAlert";
    "dailyLossPercentageAlert";
    "marginPercentageAlert";
    "dailyLossLiqOnly";
    "dailyLossPercentageLiqOnly";
    "marginPercentageLiqOnly";
    "dailyLossPercentageAutoLiq";
    "marginPercentageAutoLiq" ].

(** The loop that copies the allow-listed, non-nullish fields. *)
Definition pickAllowed (payload : JsObj) : JsObj :=
  fold_left
    (fun settings field =>
       if notNullish (getProp payload field)
       then <[ field := getProp payload field ]> settings
       else settings)
    allowedFields ∅.

Definition noValidParameters : Response :=
  mkResponse 400
    (Failure "No valid risk parameters provided. Include at least one of: dailyLossAutoLiq, dailyProfitAutoLiq, etc."
       None).

(** POST /risk-management/risk/{accountId} *)
Definition postRiskHandler (auth : TradovateAuth) (accountId : Z)
    (payload : JsObj) : M Response :=
  try_catch
    (let settings := pickAllowed payload in
     if (size settings =? 0)%nat then ret noValidParameters
     else
       let! result := setAutoLiqSettings auth accountId settings in
       invalidateCachedRisk accountId ;;;
       setCachedRisk accountId result ;;;
       ret (ok (RiskSetOk result)))
    (fun error =>
       let message := messageOr "Unknown error" error in
       if includes message "401" || includes message "Access is denied"
       then ret tokenExpired
       else if includes message "Unsupported parameters"
       then ret (mkResponse 400 (Failure message (Some "UNSUPPORTED_PARAMS")))
       else if includes message "Should be account owner"
       then ret (mkResponse 403
                   (Failure "Insufficient permissions. You are not the account owner."
                      (Some "NOT_OWNER")))
       else ret (mkResponse 500 (Failure message None))).

End Downstream.

Arguments mkState {World} world cache calls.
Arguments world {World} s.
Arguments cache {World} s.
Arguments calls {World} s.

End Gateway.
Export Gateway.

(** ** Connection resolution: [firebase.ts], [supabase.ts], the middlewares *)

Module Resolver.

(** The stored credential record, restricted to the fields the code
    reads; [None] is an absent property. *)
Record TokenRow : Type := mkRow {
  token : option string;
  url : option string
}.

(** What [getConnectionToken] hands to the middleware. *)
Record Connection : Type := mkConnection {
  conn_token : string;
  conn_url : option string
}.

(** [firebase.ts]: the record at [renewAccessTokens/{userId}/{connectionRef}],
    returned as stored.  [rtdb] is [snapshot.val()] by path. *)
Definition getConnectionToken_firebase (rtdb : string -> option TokenRow)
    (userId connectionRef : string) : Outcome Connection :=
  let data := rtdb ("renewAccessTokens/" ++ userId ++ "/" ++ connectionRef) in
  let notFound :=
    ThrownError ("No Tradovate token found for user " ++ userId
                 ++ ", connection " ++ connectionRef) in
  match data with
  | None => Threw notFound
  | Some row =>
      if negb (truthyText (token row)) then Threw notFound
      else Returned (mkConnection (default "" (token row)) (url row))
  end.

(** The answer of supabase's [.single()]: [{ data, error }], the error
    carried as its message. *)
Record SingleResult : Type := mkSingle {
  data : option TokenRow;
  error : option string
}.

(** [supabase.ts]: the row of [tdv_access_token] with this [uid] and [ref]. *)
Definition getConnectionToken_supabase
    (tdv_access_token : string -> string -> SingleResult)
    (userId connectionRef : string) : Outcome Connection :=
  let r := tdv_access_token userId connectionRef in
  match error r, data r with
  | Some message, _ =>
      Threw (ThrownError ("No Tradovate token found for user " ++ userId
                          ++ ", connection " ++ connectionRef ++ ": " ++ message))
  | None, None =>
      Threw (ThrownError ("No Tradovate token found for user " ++ userId
                          ++ ", connection " ++ connectionRef ++ ""))
  | None, Some row =>
      if negb (truthyText (token row)) then
        Threw (ThrownError ("Token is empty for user " ++ userId
                            ++ ", connection " ++ connectionRef))
      else
        Returned (mkConnection (default "" (token row))
                    (Some (default "https://demo.tradovateapi.com" (url row))))
  end.

(** The parts of a request the middlewares read; the connection
    reference may come in the payload, the query or a header. *)
Record Request : Type := mkRequest {
  authorization : option string;
  payload_connectionRef : option string;
  query_connectionRef : option string;
  x_connection_ref : option string
}.

(** The middleware either lets the request through with credentials or
    answers it itself. *)
Inductive AuthResult : Type :=
| Authenticated (userId connectionRef : string) (tradovateAuth : TradovateAuth)
| Rejected (code : Z) (error : string).

Section Middleware.

(** [verifyAuthToken]: the identity provider, giving [decoded.uid]. *)
Variable verifyAuthToken : string -> Outcome string.
(** The [getConnectionToken] the middleware imports. *)
Variable getConnectionToken : string -> string -> Outcome Connection.
(** The text of the 400 answer (the two middlewares word it differently). *)
Variable missingConnectionRef : string.

(** Steps 2 to 5 of the middleware, inside its [try]. *)
Definition resolveClient (idToken : string) (req : Request) : Outcome AuthResult :=
  match verifyAuthToken idToken with
  | Threw err => Threw err
  | Returned userId =>
      let connectionRef :=
        nullish (payload_connectionRef req)
          (nullish (query_connectionRef req) (x_connection_ref req)) in
      if negb (truthyText connectionRef) then
        Returned (Rejected 400 missingConnectionRef)
      else
        let ref := default "" connectionRef in
        match getConnectionToken userId ref with
        | Threw err => Threw err
        | Returned connection =>
            match conn_url connection with
            | None =>
                Threw (ThrownError
                  "Cannot read properties of undefined (reading 'endsWith')")
            | Some u =>
                let base := if endsWith u "/v1" then u else u ++ "/v1" in
                Returned (Authenticated userId ref
                            (fromToken base (conn_token connection)))
            end
        end
  end.

(** The [catch] block: the failure message chooses the status. *)
Definition authFailure (err : Thrown) : AuthResult :=
  let message := messageOr "Authentication failed" err in
  if includes message "Firebase ID token has expired"
     || includes message "Decoding Firebase"
  then Rejected 401 "Invalid or expired auth token"
  else if includes message "No Tradovate token found"
  then Rejected 404 message
  else Rejected 401 message.

Definition authenticate (req : Request) : AuthResult :=
  if negb (truthyText (authorization req))
     || negb (startsWith (default "" (authorization req)) "Bearer ")
  then Rejected 401 "Missing Authorization: Bearer <firebase_id_token>"
  else
    let idToken := slice (default "" (authorization req)) 7 in
    if String.eqb idToken "" then Rejected 401 "Empty auth token"
    else
      match resolveClient idToken req with
      | Returned r => r
      | Threw err => authFailure err
      end.

End Middleware.

(** The Hapi scheme of [middleware.ts] (imports [./supabase]).  hapi
    authenticates before it reads the payload, so the requests the server
    hands to the scheme have [payload_connectionRef = None]. *)
Definition authPlugin (verifyAuthToken : string -> Outcome string)
    (tdv_access_token : string -> string -> SingleResult) : Request -> AuthResult :=
  authenticate verifyAuthToken (getConnectionToken_supabase tdv_access_token)
    "Missing connectionRef (in payload, query param, or X-Connection-Ref header)".

(** The Express middleware (imports [./firebase]). *)
Definition firebaseAuth (verifyAuthToken : string -> Outcome string)
    (rtdb : string -> option TokenRow) : Request -> AuthResult :=
  authenticate verifyAuthToken (getConnectionToken_firebase rtdb)
    "Missing connectionRef (in body, query param, or X-Connection-Ref header)".

End Resolver.

(** ** Reading aids for the statements *)

(** What a guarded lookup of [getAutoLiqSettings] leaves in its variable:
    the list returned, [[]] after a denied failure, and nothing when the
    failure is rethrown. *)
Definition settled (r : Outcome (list JsObj)) : option (list JsObj) :=
  match r with
  | Returned xs => Some xs
  | Threw err => if isDenied err then Some [] else None
  end.

(** The query both lookups send: [{ masterid: String(accountId) }]. *)
Definition masterid (accountId : Z) : JsObj :=
  {[ "masterid" := VStr (String_of accountId) ]}.

(** The state after one GET was issued from [s] and moved the world to [w]. *)
Definition afterGet {World : Type} (s : @State World) (auth : TradovateAuth)
    (path : string) (accountId : Z) (w : World) : @State World :=
  mkState w (cache s) (calls s ++ [CallGet auth path (masterid accountId)]).

Module Answers.

(** The answers of the two lookups of a read started in world [w]: the
    owner endpoint is asked first, the permissioned endpoint in the
    world the first call left. *)
Definition ownerAnswer {World : Type}
    (http_get : TradovateAuth -> string -> JsObj -> World -> Outcome (list JsObj) * World)
    (auth : TradovateAuth) (accountId : Z) (w : World) : Outcome (list JsObj) * World :=
  http_get auth "/userAccountAutoLiq/deps" (masterid accountId) w.

Definition permAnswer {World : Type}
    (http_get : TradovateAuth -> string -> JsObj -> World -> Outcome (list JsObj) * World)
    (auth : TradovateAuth) (accountId : Z) (w : World) : Outcome (list JsObj) * World :=
  http_get auth "/permissionedAccountAutoLiq/deps" (masterid accountId)
    (snd (ownerAnswer http_get auth accountId w)).

(** The answer of the one update call of a write started in world [w]. *)
Definition updateAnswer {World : Type}
    (http_post : TradovateAuth -> string -> JsObj -> World ->
                 Outcome UpdateUserAutoLiqResponse * World)
    (auth : TradovateAuth) (accountId : Z) (settings : JsObj) (w : World)
  : Outcome UpdateUserAutoLiqResponse * World :=
  http_post auth "/userAccountAutoLiq/updateuserautoliq"
    (updateBody accountId settings) w.

End Answers.
Export Answers.

(** The update call as it is logged. *)
Definition updateCall (auth : TradovateAuth) (accountId : Z) (settings : JsObj) : Call :=
  CallPost auth "/userAccountAutoLiq/updateuserautoliq" (updateBody accountId settings).

(** A record the merge step can identify: its [id] is truthy. *)
Definition identifiable (o : JsObj) : bool := truthy (getProp o "id").

(** A scripted downstream for closed examples: the world is the clock,
    the owner and permissioned endpoints answer as told. *)
Module Stub.

Definition now (w : Z) : Z := w.

Definition get (owner perm : Outcome (list JsObj))
  : TradovateAuth -> string -> JsObj -> Z -> Outcome (list JsObj) * Z :=
  fun _ path _ w =>
    (if String.eqb path "/userAccountAutoLiq/deps" then owner else perm, w).

Definition post (answer : Outcome UpdateUserAutoLiqResponse)
  : TradovateAuth -> string -> JsObj -> Z -> Outcome UpdateUserAutoLiqResponse * Z :=
  fun _ _ _ w => (answer, w).

Definition auth : TradovateAuth :=
  fromToken "https://demo.tradovateapi.com/v1" "tok".

(** A fresh process at time 0: empty cache, nothing sent yet. *)
Definition fresh : @State Z := mkState 0 ∅ [].

(** A failure as the client reports a 401 from downstream. *)
Definition unauthorized : Thrown := ThrownError "HTTP 401: Unauthorized".

(** A failure of another kind. *)
Definition serverError : Thrown := ThrownError "HTTP 500: Internal Server Error".

(** Sample records. *)
Definition ownerRecord : JsObj :=
  {[ "id" := VNum 42; "dailyLossAutoLiq" := VNum 500 ]}.
Definition permRecord : JsObj :=
  {[ "id" := VNum 42; "dailyLossAutoLiq" := VNum 300; "dailyProfitAutoLiq" := VNum 1000 ]}.

(** An identity provider that accepts every token as user [u1]. *)
Definition verify : string -> Outcome string := fun _ => Returned "u1".

(** GET /risk/42?connectionRef=TS-1 with a bearer token. *)
Definition request : Resolver.Request :=
  Resolver.mkRequest (Some "Bearer good-token") None (Some "TS-1") None.

(** A stored credential whose token is the empty string. *)
Definition emptyTokenRow : Resolver.TokenRow :=
  Resolver.mkRow (Some "") (Some "https://demo.tradovateapi.com").

(** A write payload, and the downstream answers to it. *)
Definition writePayload : JsObj :=
  {[ "connectionRef" := VStr "TS-1";
     "dailyLossAutoLiq" := VNum 500;
     "dailyProfitAutoLiq" := VNum 1000 ]}.
Definition writtenRecord : JsObj :=
  {[ "id" := VNum 42; "dailyLossAutoLiq" := VNum 500; "dailyProfitAutoLiq" := VNum 1000 ]}.
Definition ownerShape : UpdateUserAutoLiqResponse :=
  mkUpdateResponse None (Some writtenRecord) None.
Definition permShape : UpdateUserAutoLiqResponse :=
  mkUpdateResponse None None (Some writtenRecord).
Definition refusal : UpdateUserAutoLiqResponse :=
  mkUpdateResponse (Some "Should be account owner") None None.
Definition noEntity : UpdateUserAutoLiqResponse :=
  mkUpdateResponse None None None.

(** A process that has an older record cached for account 42. *)
Definition warm : @State Z :=
  mkState 1000 {[ riskKey 42 := NodeCache.mkEntry ownerRecord 3601000 ]} [].

(** The two credential stores, each holding that record. *)
Definition table : string -> string -> Resolver.SingleResult :=
  fun _ _ => Resolver.mkSingle (Some emptyTokenRow) None.
Definition rtdb : string -> option Resolver.TokenRow :=
  fun _ => Some emptyTokenRow.

End Stub.

(** ** Reading aids for the handlers' end states *)

Module EndStates.

(** The state a fetch of the GET handler ends in, given the state [s2]
    after its two calls: the merged record, if any, is stored at the time
    the second call returned. *)
Definition fetched {World : Type} (Date_now : World -> Z) (accountId : Z)
    (s2 : @State World) (merged : list JsObj) : @State World :=
  match head merged with
  | Some m =>
      mkState (world s2)
        (NodeCache.set (Date_now (world s2)) (riskKey accountId) m (cache s2))
        (calls s2)
  | None => s2
  end.

End EndStates.
Export EndStates.

(** ** The convenience write of [lib/risk.ts] *)

Module Limits.

(** The settings [setDailyLimits] passes on. *)
Definition dailyLimits (dailyLossLimit dailyProfitTarget : JsVal) (keepClosed : bool)
  : JsObj :=
  {[ "dailyLossAutoLiq" := dailyLossLimit;
     "dailyProfitAutoLiq" := dailyProfitTarget;
     "doNotUnlock" := VBool keepClosed ]}.

(** [setDailyLimits(auth, accountId, dailyLossLimit, dailyProfitTarget,
    keepClosed = true)]; [None] is the omitted last argument. *)
Definition setDailyLimits {World : Type}
    (http_post : TradovateAuth -> string -> JsObj -> World ->
                 Outcome UpdateUserAutoLiqResponse * World)
    (auth : TradovateAuth) (accountId : Z)
    (dailyLossLimit dailyProfitTarget : Z) (keepClosed : option bool)
  : @State World -> Outcome JsObj * @State World :=
  setAutoLiqSettings http_post auth accountId
    (dailyLimits (VNum dailyLossLimit) (VNum dailyProfitTarget)
       (default true keepClosed)).

End Limits.
Export Limits.

(** ** The payload schema of the POST route *)

Module Schema.

(** The number keys of [SetRiskPayload] ([routes.ts], the route's
    [validate.payload]), in the order the schema lists them. *)
Definition numberKeys : list string :=
  [ "dailyLossAutoLiq";
    "dailyProfitAutoLiq";
    "weeklyLossAutoLiq";
    "weeklyProfitAutoLiq";
    "dailyLossAlert";
    "dailyLossPercentageAlert";
    "marginPercentageAlert";
    "dailyLossLiqOnly";
    "dailyLossPercentageLiqOnly";
    "marginPercentageLiqOnly";
    "dailyLossPercentageAutoLiq";
    "marginPercentageAutoLiq" ].

(** [Number.MAX_SAFE_INTEGER]: Joi refuses numbers beyond it. *)
Definition MAX_SAFE_INTEGER : Z := 9007199254740991.

Definition safe (n : Z) : bool :=
  (- MAX_SAFE_INTEGER <=? n) && (n <=? MAX_SAFE_INTEGER).

Section Joi.

(** Joi converts numeric text to a number before it checks it; which
    texts are numeric is the library's business and stays a parameter
    ([None]: not a number). *)
Variable toNumber : string -> option Z.

(** [Joi.number().optional()]: an absent value, a safe number, or text
    that converts to one; [null] and everything else is refused. *)
Definition number (v : JsVal) : option JsVal :=
  match v with
  | VUndefined => Some VUndefined
  | VNum n => if safe n then Some (VNum n) else None
  | VStr s =>
      match toNumber s with
      | Some n => if safe n then Some (VNum n) else None
      | None => None
      end
  | _ => None
  end.

(** [Joi.string().required()]: a non-empty string. *)
Definition requiredString (v : JsVal) : option JsVal :=
  match v with
  | VStr s => if String.eqb s "" then None else Some v
  | _ => None
  end.

(** One key of the body against the schema; a key the schema does not
    list is refused (the object is not marked [unknown(true)]). *)
Definition field (k : string) (v : JsVal) : option JsVal :=
  if String.eqb k "connectionRef" then requiredString v
  else if bool_decide (k ∈ numberKeys) then number v
  else None.

(** The whole body: [connectionRef] must be there, every key must pass;
    the handler then sees the converted values.  [None]: the body is
    refused. *)
Definition SetRiskPayload (body : JsObj) : option JsObj :=
  match body !! "connectionRef" with
  | None => None
  | Some _ =>
      if forallb (fun kv => bool_decide (is_Some (field (fst kv) (snd kv))))
           (map_to_list body)
      then Some (map_imap field body)
      else None
  end.

End Joi.

(** What the route gives back to the framework: the body was refused by
    the schema (hapi answers 400 itself and the handler does not run), or
    the handler ran. *)
Inductive RouteAnswer : Type :=
| SchemaRejected
| Handled (outcome : Outcome Response).

(** POST /risk-management/risk/{accountId} from the validated payload
    on: the payload schema, then the handler on the validated body.
    (Authentication comes before and is [Resolver.authPlugin]; the
    response schemas of the route are not part of this definition.) *)
Definition postRiskValidated {World : Type} (Date_now : World -> Z)
    (http_post : TradovateAuth -> string -> JsObj -> World ->
                 Outcome UpdateUserAutoLiqResponse * World)
    (toNumber : string -> option Z)
    (auth : TradovateAuth) (accountId : Z) (body : JsObj)
  : @State World -> RouteAnswer * @State World :=
  fun s =>
    match SetRiskPayload toNumber body with
    | None => (SchemaRejected, s)
    | Some validated =>
        let r := postRiskHandler Date_now http_post auth accountId validated s in
        (Handled (fst r), snd r)
    end.

End Schema.
Export Schema.

(** ** Sample requests and stores for the closed instances *)

Module Samples.

Import Resolver.

(** A request that names its connection in the query. *)
Definition viaQuery (ref : string) : Request :=
  mkRequest (Some "Bearer good-token") None (Some ref) None.

(** A request whose payload carries an empty reference and whose query
    carries a usable one. *)
Definition emptyInPayload : Request :=
  mkRequest (Some "Bearer good-token") (Some "") (Some "TS-1") None.

(** A request without an authorization header. *)
Definition anonymous : Request := mkRequest None None (Some "TS-1") None.

(** Stored credentials: complete, and without a URL. *)
Definition fullRow : TokenRow :=
  mkRow (Some "tdv-token") (Some "https://live.tradovateapi.com").
Definition noUrlRow : TokenRow := mkRow (Some "tdv-token") None.

(** Stores that hold one given record for every key, and stores that
    hold nothing. *)
Definition tableOf (row : TokenRow) : string -> string -> SingleResult :=
  fun _ _ => mkSingle (Some row) None.
Definition rtdbOf (row : TokenRow) : string -> option TokenRow :=
  fun _ => Some row.
Definition emptyTable : string -> string -> SingleResult :=
  fun _ _ => mkSingle None (Some "JSON object requested, multiple (or no) rows returned").
Definition emptyRtdb : string -> option TokenRow := fun _ => None.

(** Bodies for the POST route: both limits sent as [null], one limit
    sent as [null] beside a usable one, the same without the [null], and
    a body with nothing but the connection reference. *)
Definition allNull : JsObj :=
  {[ "connectionRef" := VStr "TS-1";
     "dailyLossAutoLiq" := VNull;
     "dailyProfitAutoLiq" := VNull ]}.
Definition oneNull : JsObj :=
  {[ "connectionRef" := VStr "TS-1";
     "dailyLossAutoLiq" := VNull;
     "dailyProfitAutoLiq" := VNum 1000 ]}.
Definition oneNullLeftOut : JsObj :=
  {[ "connectionRef" := VStr "TS-1";
     "dailyProfitAutoLiq" := VNum 1000 ]}.
Definition refOnly : JsObj := {[ "connectionRef" := VStr "TS-1" ]}.

(** A body that asks for the keep-closed flag. *)
Definition withFlag : JsObj :=
  {[ "connectionRef" := VStr "TS-1";
     "dailyLossAutoLiq" := VNum 500;
     "dailyProfitAutoLiq" := VNum 1000;
     "doNotUnlock" := VBool true ]}.

(** A conversion that reads plain decimal integers. *)
Definition decimalText (s : string) : option Z :=
  option_map Z.of_int (NilZero.int_of_string s).

(** A process that has an entry for account 42 which ran out at time
    1000, looked at at time 5000. *)
Definition stale : @State Z :=
  mkState 5000 {[ riskKey 42 := NodeCache.mkEntry Stub.ownerRecord 1000 ]} [].

End Samples.

(** ** Strings *)

Example String_of_42 : String_of 42 = "42".
Proof. reflexivity. Qed.

Example includes_401 : includes "HTTP 401 Unauthorized" "401" = true.
Proof. reflexivity. Qed.

Example endsWith_v1 : endsWith "https://demo.tradovateapi.com/v1" "/v1" = true.
Proof. reflexivity. Qed.

Example spread_ex :
  spread2 {[ "a" := VNum 1; "b" := VNum 2 ]} {[ "b" := VNum 3 ]} !! "b" = Some (VNum 3).
Proof. reflexivity. Qed.

Lemma prefix_app (p s : string) : String.prefix p (p ++ s) = true.
Proof.
  induction p as [|a p IH]; simpl.
  - destruct s; reflexivity.
  - destruct (ascii_dec a a) as [_|n]; [exact IH | contradiction].
Qed.

Lemma prefix_refl (p : string) : String.prefix p p = true.
Proof.
  induction p as [|a p IH]; simpl; [reflexivity|].
  destruct (ascii_dec a a) as [_|n]; [exact IH | contradiction].
Qed.

Lemma includes_prefix (s sub : string) :
  String.prefix sub s = true -> includes s sub = true.
Proof. intros H. destruct s; simpl in *; rewrite H; reflexivity. Qed.

Lemma includes_self (s : string) : includes s s = true.
Proof. apply includes_prefix, prefix_refl. Qed.

Lemma includes_app_l (p s : string) : includes (p ++ s) p = true.
Proof. apply includes_prefix, prefix_app. Qed.

Lemma includes_app_r (a b sub : string) :
  includes b sub = true -> includes (a ++ b) sub = true.
Proof.
  intros H. induction a as [|c a IH]; simpl; [exact H|].
  rewrite IH. apply orb_true_r.
Qed.

(** ** The cache module *)

Section GatewayFacts.

Context {World : Type}.
Variable Date_now : World -> Z.
Variable http_get :
  TradovateAuth -> string -> JsObj -> World -> Outcome (list JsObj) * World.
Variable http_post :
  TradovateAuth -> string -> JsObj -> World ->
  Outcome UpdateUserAutoLiqResponse * World.

Local Abbreviation getCachedRisk := (getCachedRisk Date_now).
Local Abbreviation setCachedRisk := (setCachedRisk Date_now).
Local Abbreviation depsOrEmpty := (depsOrEmpty http_get).
Local Abbreviation getAutoLiqSettings := (getAutoLiqSettings http_get).
Local Abbreviation setAutoLiqSettings := (setAutoLiqSettings http_post).
Local Abbreviation getRiskHandler := (getRiskHandler Date_now http_get).
Local Abbreviation postRiskHandler := (postRiskHandler Date_now http_post).
Local Abbreviation ownerAnswer := (ownerAnswer http_get).
Local Abbreviation permAnswer := (permAnswer http_get).
Local Abbreviation updateAnswer := (updateAnswer http_post).

Lemma getCachedRisk_hit (accountId : Z) (s : @State World) (e : NodeCache.Entry) :
  cache s !! riskKey accountId = Some e ->
  NodeCache.expired (Date_now (world s)) e = false ->
  getCachedRisk accountId s = (Returned (Some (NodeCache.v e)), s).
Proof.
  intros Hc He. unfold Gateway.getCachedRisk, NodeCache.get.
  rewrite Hc, He. destruct s; reflexivity.
Qed.

Lemma getCachedRisk_miss (accountId : Z) (s : @State World) :
  cache s !! riskKey accountId = None ->
  getCachedRisk accountId s = (Returned None, s).
Proof.
  intros Hc. unfold Gateway.getCachedRisk, NodeCache.get.
  rewrite Hc. destruct s; reflexivity.
Qed.

(** *** The guarded lookups *)

Lemma depsOrEmpty_run auth path accountId (s : @State World) :
  depsOrEmpty auth path accountId s =
    let r := http_get auth path (masterid accountId) (world s) in
    let s' := afterGet s auth path accountId (snd r) in
    match fst r with
    | Returned xs => (Returned xs, s')
    | Threw err => if isDenied err then (Returned [], s') else (Threw err, s')
    end.
Proof.
  unfold Gateway.depsOrEmpty, try_catch, auth_get, afterGet, masterid.
  destruct (http_get _ _ _ _) as [[xs|err] w]; simpl; [reflexivity|].
  destruct (isDenied err); reflexivity.
Qed.

Lemma depsOrEmpty_settled auth path accountId (s : @State World) xs :
  settled (fst (http_get auth path (masterid accountId) (world s))) = Some xs ->
  depsOrEmpty auth path accountId s =
    (Returned xs,
     afterGet s auth path accountId
       (snd (http_get auth path (masterid accountId) (world s)))).
Proof.
  intros H. rewrite depsOrEmpty_run. cbv zeta.
  destruct (fst (http_get _ _ _ _)) as [ys|err]; simpl in H.
  - congruence.
  - destruct (isDenied err); congruence.
Qed.

Lemma depsOrEmpty_rethrown auth path accountId (s : @State World) err :
  fst (http_get auth path (masterid accountId) (world s)) = Threw err ->
  isDenied err = false ->
  depsOrEmpty auth path accountId s =
    (Threw err,
     afterGet s auth path accountId
       (snd (http_get auth path (masterid accountId) (world s)))).
Proof.
  intros H Hd. rewrite depsOrEmpty_run. cbv zeta. rewrite H, Hd. reflexivity.
Qed.

(** *** [getAutoLiqSettings] *)

Lemma getAutoLiqSettings_settled auth accountId (s : @State World) us ps :
  settled (fst (ownerAnswer auth accountId (world s))) = Some us ->
  settled (fst (permAnswer auth accountId (world s))) = Some ps ->
  getAutoLiqSettings auth accountId s =
    (Returned (mergeSettings us ps),
     afterGet
       (afterGet s auth "/userAccountAutoLiq/deps" accountId
          (snd (ownerAnswer auth accountId (world s))))
       auth "/permissionedAccountAutoLiq/deps" accountId
       (snd (permAnswer auth accountId (world s)))).
Proof.
  intros Ho Hp. unfold Gateway.getAutoLiqSettings, bind.
  rewrite (depsOrEmpty_settled _ _ _ _ us) by exact Ho.
  rewrite (depsOrEmpty_settled _ _ _ _ ps) by exact Hp.
  reflexivity.
Qed.

Lemma getAutoLiqSettings_owner_rethrown auth accountId (s : @State World) err :
  fst (ownerAnswer auth accountId (world s)) = Threw err ->
  isDenied err = false ->
  getAutoLiqSettings auth accountId s =
    (Threw err,
     afterGet s auth "/userAccountAutoLiq/deps" accountId
       (snd (ownerAnswer auth accountId (world s)))).
Proof.
  intros Ho Hd. unfold Gateway.getAutoLiqSettings, bind.
  rewrite (depsOrEmpty_rethrown _ _ _ _ err) by assumption.
  reflexivity.
Qed.

Lemma getAutoLiqSettings_perm_rethrown auth accountId (s : @State World) us err :
  settled (fst (ownerAnswer auth accountId (world s))) = Some us ->
  fst (permAnswer auth accountId (world s)) = Threw err ->
  isDenied err = false ->
  fst (getAutoLiqSettings auth accountId s) = Threw err.
Proof.
  intros Ho Hp Hd. unfold Gateway.getAutoLiqSettings, bind.
  rewrite (depsOrEmpty_settled _ _ _ _ us) by exact Ho.
  rewrite (depsOrEmpty_rethrown _ _ _ _ err) by assumption.
  reflexivity.
Qed.

(** *** The merge step *)

Lemma mergeSettings_identified (us ps : list JsObj) :
  identifiable (firstOrEmpty us) || identifiable (firstOrEmpty ps) = true ->
  mergeSettings us ps = [spread2 (firstOrEmpty ps) (firstOrEmpty us)].
Proof.
  unfold mergeSettings, identifiable. intros H.
  destruct (truthy (getProp (firstOrEmpty us) "id")),
           (truthy (getProp (firstOrEmpty ps) "id")); simpl in *;
    congruence.
Qed.

Lemma mergeSettings_unidentified (us ps : list JsObj) :
  identifiable (firstOrEmpty us) = false ->
  identifiable (firstOrEmpty ps) = false ->
  mergeSettings us ps = [].
Proof.
  unfold mergeSettings, identifiable. intros -> ->. reflexivity.
Qed.

Lemma spread2_lookup (a b : JsObj) (k : string) :
  spread2 a b !! k = match b !! k with Some x => Some x | None => a !! k end.
Proof.
  unfold spread2. rewrite lookup_union.
  destruct (b !! k), (a !! k); reflexivity.
Qed.

Lemma spread2_empty_l (b : JsObj) : spread2 ∅ b = b.
Proof. unfold spread2. apply (right_id_L ∅ (∪)). Qed.

Lemma spread2_empty_r (a : JsObj) : spread2 a ∅ = a.
Proof. unfold spread2. apply (left_id_L ∅ (∪)). Qed.

(** *** The GET handler *)

Lemma getRiskHandler_fetch auth accountId (s : @State World) us ps :
  cache s !! riskKey accountId = None ->
  settled (fst (ownerAnswer auth accountId (world s))) = Some us ->
  settled (fst (permAnswer auth accountId (world s))) = Some ps ->
  fst (getRiskHandler auth accountId s)
  = Returned (ok (RiskGetOk (head (mergeSettings us ps)) false)).
Proof.
  intros Hc Ho Hp.
  unfold Gateway.getRiskHandler, try_catch, bind.
  rewrite getCachedRisk_miss by exact Hc.
  rewrite (getAutoLiqSettings_settled _ _ _ us ps) by assumption.
  destruct (head (mergeSettings us ps)); reflexivity.
Qed.

(** C1 (as amended): when both lookups complete and at least one of the
    two first records carries a truthy [id], [getAutoLiqSettings] returns
    exactly one record, the permissioned record overlaid by the owner
    record: each field of either record is in it, the owner's value wins
    where both have the field, and with a record on one side only the
    result is that record. *)
Theorem getAutoLiqSettings_merges_identified
    auth accountId (s : @State World) (us ps : list JsObj) :
  settled (fst (ownerAnswer auth accountId (world s))) = Some us ->
  settled (fst (permAnswer auth accountId (world s))) = Some ps ->
  identifiable (firstOrEmpty us) || identifiable (firstOrEmpty ps) = true ->
  let user := firstOrEmpty us in
  let perm := firstOrEmpty ps in
  exists merged : JsObj,
    fst (getAutoLiqSettings auth accountId s) = Returned [merged]
    /\ merged = spread2 perm user
    /\ (forall k x, user !! k = Some x -> merged !! k = Some x)
    /\ (forall k x, user !! k = None -> perm !! k = Some x -> merged !! k = Some x)
    /\ (forall k, merged !! k = None <-> user !! k = None /\ perm !! k = None)
    /\ (head ps = None -> merged = user)
    /\ (head us = None -> merged = perm).
Proof.
  intros Ho Hp Hid user perm.
  exists (spread2 perm user).
  rewrite (getAutoLiqSettings_settled _ _ _ us ps) by assumption.
  rewrite mergeSettings_identified by exact Hid.
  split; [reflexivity|]. split; [reflexivity|].
  split; [|split; [|split; [|split]]].
  - intros k x Hu. rewrite spread2_lookup, Hu. reflexivity.
  - intros k x Hu Hq. rewrite spread2_lookup, Hu. exact Hq.
  - intros k. rewrite spread2_lookup. destruct (user !! k); split.
    + discriminate.
    + intros [H _]. discriminate.
    + intros H. split; [reflexivity | exact H].
    + intros [_ H]. exact H.
  - intros Hn. subst perm. unfold firstOrEmpty. rewrite Hn. simpl.
    apply spread2_empty_l.
  - intros Hn. subst user. unfold firstOrEmpty. rewrite Hn. simpl.
    apply spread2_empty_r.
Qed.

(** C2: in [getAutoLiqSettings] a lookup that fails with a denied error
    (its message includes "401" or "Access is denied") counts as an empty
    answer and the read returns the merge of what the other lookup
    gave (nothing when both are denied); a failure of any other kind,
    from the owner lookup or from the permissioned one, is the failure
    of the read. *)
Theorem getAutoLiqSettings_failures auth accountId (s : @State World) :
  let owner := fst (ownerAnswer auth accountId (world s)) in
  let perm := fst (permAnswer auth accountId (world s)) in
  (forall err ps,
      owner = Threw err -> isDenied err = true -> perm = Returned ps ->
      fst (getAutoLiqSettings auth accountId s) = Returned (mergeSettings [] ps))
  /\ (forall err us,
      owner = Returned us -> perm = Threw err -> isDenied err = true ->
      fst (getAutoLiqSettings auth accountId s) = Returned (mergeSettings us []))
  /\ (forall err err',
      owner = Threw err -> isDenied err = true ->
      perm = Threw err' -> isDenied err' = true ->
      fst (getAutoLiqSettings auth accountId s) = Returned [])
  /\ (forall err,
      owner = Threw err -> isDenied err = false ->
      fst (getAutoLiqSettings auth accountId s) = Threw err)
  /\ (forall err us,
      settled owner = Some us -> perm = Threw err -> isDenied err = false ->
      fst (getAutoLiqSettings auth accountId s) = Threw err).
Proof.
  intros owner perm. subst owner perm.
  split; [|split; [|split; [|split]]].
  - intros err ps Ho Hd Hp.
    rewrite (getAutoLiqSettings_settled _ _ _ [] ps); [reflexivity| |].
    + rewrite Ho. simpl. rewrite Hd. reflexivity.
    + rewrite Hp. reflexivity.
  - intros err us Ho Hp Hd.
    rewrite (getAutoLiqSettings_settled _ _ _ us []); [reflexivity| |].
    + rewrite Ho. reflexivity.
    + rewrite Hp. simpl. rewrite Hd. reflexivity.
  - intros err err' Ho Hd Hp Hd'.
    rewrite (getAutoLiqSettings_settled _ _ _ [] []); [reflexivity| |].
    + rewrite Ho. simpl. rewrite Hd. reflexivity.
    + rewrite Hp. simpl. rewrite Hd'. reflexivity.
  - intros err Ho Hd.
    rewrite (getAutoLiqSettings_owner_rethrown _ _ _ err) by assumption.
    reflexivity.
  - intros err us Ho Hp Hd.
    apply (getAutoLiqSettings_perm_rethrown _ _ _ us); assumption.
Qed.

(** C6: when both lookups complete and neither first record has a truthy
    [id] (no record at all included), [getAutoLiqSettings] returns the
    empty list, and the GET handler, on a cache miss, answers 200 with
    [autoLiq: null]. *)
Theorem read_without_identifiable_record
    auth accountId (s : @State World) (us ps : list JsObj) :
  settled (fst (ownerAnswer auth accountId (world s))) = Some us ->
  settled (fst (permAnswer auth accountId (world s))) = Some ps ->
  identifiable (firstOrEmpty us) = false ->
  identifiable (firstOrEmpty ps) = false ->
  fst (getAutoLiqSettings auth accountId s) = Returned []
  /\ (cache s !! riskKey accountId = None ->
      fst (getRiskHandler auth accountId s) = Returned (ok (RiskGetOk None false))).
Proof.
  intros Ho Hp Hu Hq. split.
  - rewrite (getAutoLiqSettings_settled _ _ _ us ps) by assumption.
    rewrite mergeSettings_unidentified by assumption. reflexivity.
  - intros Hc.
    rewrite (getRiskHandler_fetch _ _ _ us ps) by assumption.
    rewrite mergeSettings_unidentified by assumption. reflexivity.
Qed.

(** C7 (as amended): GET for account 42 with nothing cached, the owner
    endpoint returning the one record [{id, dailyLossAutoLiq: 500}] with
    a non-zero [id] and the permissioned endpoint failing with a 401:
    the answer is 200 [{success: true, autoLiq: <that record>,
    cached: false}]. *)
Theorem getRiskHandler_owner_record_perm_401
    auth (s : @State World) (id : Z) (err : Thrown) :
  let record : JsObj := {[ "id" := VNum id; "dailyLossAutoLiq" := VNum 500 ]} in
  id <> 0 ->
  cache s !! riskKey 42 = None ->
  fst (ownerAnswer auth 42 (world s)) = Returned [record] ->
  fst (permAnswer auth 42 (world s)) = Threw err ->
  includes (messageOr "" err) "401" = true ->
  fst (getRiskHandler auth 42 s) = Returned (ok (RiskGetOk (Some record) false)).
Proof.
  intros record Hid Hc Ho Hp H401.
  rewrite (getRiskHandler_fetch _ _ _ [record] []); try assumption.
  - rewrite mergeSettings_identified.
    + simpl. rewrite spread2_empty_l. reflexivity.
    + change (firstOrEmpty [record]) with record.
      unfold identifiable, getProp. subst record.
      rewrite lookup_insert_eq. simpl.
      destruct (Z.eqb_spec id 0); [contradiction | reflexivity].
  - rewrite Ho. reflexivity.
  - rewrite Hp. simpl. unfold isDenied. rewrite H401. reflexivity.
Qed.

Lemma getRiskHandler_hit auth accountId (s : @State World) (e : NodeCache.Entry) :
  cache s !! riskKey accountId = Some e ->
  NodeCache.expired (Date_now (world s)) e = false ->
  getRiskHandler auth accountId s
  = (Returned (ok (RiskGetOk (Some (NodeCache.v e)) true)), s).
Proof.
  intros Hc He.
  unfold Gateway.getRiskHandler, try_catch, bind.
  rewrite (getCachedRisk_hit _ _ e) by assumption.
  reflexivity.
Qed.

(** C8: with an unexpired entry cached for the account, the GET handler
    answers 200 with that entry and [cached: true], and leaves the state
    as it was: no downstream call is logged and the world has not
    moved. *)
Theorem getRiskHandler_cache_hit
    auth accountId (s : @State World) (e : NodeCache.Entry) :
  cache s !! riskKey accountId = Some e ->
  NodeCache.expired (Date_now (world s)) e = false ->
  let answer := getRiskHandler auth accountId s in
  fst answer = Returned (ok (RiskGetOk (Some (NodeCache.v e)) true))
  /\ calls (snd answer) = calls s
  /\ world (snd answer) = world s
  /\ snd answer = s.
Proof.
  intros Hc He answer. subst answer.
  rewrite (getRiskHandler_hit _ _ _ e) by assumption.
  repeat split.
Qed.

(** *** [setAutoLiqSettings] *)

Lemma setAutoLiqSettings_run auth accountId settings (s : @State World) :
  setAutoLiqSettings auth accountId settings s =
    let r := updateAnswer auth accountId settings (world s) in
    let s' := mkState (snd r) (cache s)
                (calls s ++ [updateCall auth accountId settings]) in
    match fst r with
    | Threw err => (Threw err, s')
    | Returned result =>
        if truthyText (errorText result) then
          (Threw (ThrownError
                    ("Failed to set auto-liq for account " ++ String_of accountId
                     ++ ": " ++ default "" (errorText result))), s')
        else
          match nullish (userAccountAutoLiq result)
                  (permissionedAccountAutoLiq result) with
          | None =>
              (Threw (ThrownError
                        ("No auto-liq entity returned for account "
                         ++ String_of accountId)), s')
          | Some autoLiq => (Returned autoLiq, s')
          end
    end.
Proof.
  unfold Gateway.setAutoLiqSettings, bind, auth_post, Answers.updateAnswer,
    updateCall.
  destruct (http_post _ _ _ _) as [[result|err] w]; simpl; [|reflexivity].
  destruct (truthyText (errorText result)); [reflexivity|].
  destruct (nullish _ _); reflexivity.
Qed.

(** C5: how [setAutoLiqSettings] reads the answer of the update call.
    A non-empty [errorText] makes it throw an error whose message
    contains that text; otherwise it returns the [userAccountAutoLiq]
    entity if there is one, else the [permissionedAccountAutoLiq]
    entity, and throws "No auto-liq entity returned ..." when the answer
    has neither. *)
Theorem setAutoLiqSettings_reads_answer
    auth accountId settings (s : @State World) (result : UpdateUserAutoLiqResponse) :
  fst (updateAnswer auth accountId settings (world s)) = Returned result ->
  let outcome := fst (setAutoLiqSettings auth accountId settings s) in
  (forall text, errorText result = Some text -> text <> "" ->
     exists message,
       outcome = Threw (ThrownError message) /\ includes message text = true)
  /\ (truthyText (errorText result) = false ->
      forall owner, userAccountAutoLiq result = Some owner ->
      outcome = Returned owner)
  /\ (truthyText (errorText result) = false ->
      userAccountAutoLiq result = None ->
      forall perm, permissionedAccountAutoLiq result = Some perm ->
      outcome = Returned perm)
  /\ (truthyText (errorText result) = false ->
      userAccountAutoLiq result = None ->
      permissionedAccountAutoLiq result = None ->
      outcome = Threw (ThrownError
                         ("No auto-liq entity returned for account "
                          ++ String_of accountId))).
Proof.
  intros Hr outcome. subst outcome.
  rewrite setAutoLiqSettings_run. cbv zeta. rewrite Hr.
  split; [|split; [|split]].
  - intros text Ht Hne. rewrite Ht. simpl.
    destruct (String.eqb_spec text ""); [contradiction|]. simpl.
    eexists. split; [reflexivity|].
    apply includes_app_r, includes_app_r, includes_app_r, includes_self.
  - intros Hf owner Ho. rewrite Hf, Ho. reflexivity.
  - intros Hf Ho perm Hp. rewrite Hf, Ho, Hp. reflexivity.
  - intros Hf Ho Hp. rewrite Hf, Ho, Hp. reflexivity.
Qed.

(** *** The allow-list filter *)

Lemma pick_fold_lookup (payload : JsObj) (l : list string) (acc : JsObj) (k : string) :
  fold_left
    (fun settings field =>
       if notNullish (getProp payload field)
       then <[ field := getProp payload field ]> settings
       else settings) l acc !! k
  = if bool_decide (k ∈ l) && notNullish (getProp payload k)
    then Some (getProp payload k)
    else acc !! k.
Proof.
  revert acc. induction l as [|a l IH]; intros acc; cbn [fold_left].
  - rewrite bool_decide_eq_false_2 by apply not_elem_of_nil. reflexivity.
  - rewrite IH. destruct (decide (k = a)) as [->|Hne].
    + rewrite (bool_decide_eq_true_2 (a ∈ a :: l)) by apply list_elem_of_here.
      destruct (notNullish (getProp payload a)) eqn:Hn; simpl.
      * rewrite lookup_insert_eq. destruct (bool_decide (a ∈ l)); reflexivity.
      * rewrite andb_false_r. reflexivity.
    + assert (bool_decide (k ∈ a :: l) = bool_decide (k ∈ l)) as ->.
      { apply bool_decide_ext. rewrite elem_of_cons. tauto. }
      destruct (bool_decide (k ∈ l) && notNullish (getProp payload k));
        [reflexivity|].
      destruct (notNullish (getProp payload a)); [|reflexivity].
      apply lookup_insert_ne. congruence.
Qed.

Lemma pickAllowed_lookup (payload : JsObj) (k : string) :
  pickAllowed payload !! k
  = if bool_decide (k ∈ allowedFields) && notNullish (getProp payload k)
    then Some (getProp payload k)
    else None.
Proof. unfold pickAllowed. rewrite pick_fold_lookup, lookup_empty. reflexivity. Qed.

Lemma notNullish_getProp (o : JsObj) (k : string) :
  notNullish (getProp o k) = true -> o !! k = Some (getProp o k).
Proof.
  unfold getProp. destruct (o !! k); simpl; [reflexivity | discriminate].
Qed.

Lemma pickAllowed_Some (payload : JsObj) (k : string) (x : JsVal) :
  pickAllowed payload !! k = Some x <->
  k ∈ allowedFields /\ payload !! k = Some x /\ notNullish x = true.
Proof.
  rewrite pickAllowed_lookup. split.
  - destruct (bool_decide (k ∈ allowedFields)) eqn:Hk; simpl; [|discriminate].
    destruct (notNullish (getProp payload k)) eqn:Hn; [|discriminate].
    intros [= <-]. apply bool_decide_eq_true_1 in Hk.
    split; [exact Hk|]. split; [apply notNullish_getProp, Hn | exact Hn].
  - intros (Hk & Hp & Hn).
    rewrite bool_decide_eq_true_2 by exact Hk.
    unfold getProp. rewrite Hp. simpl. rewrite Hn. reflexivity.
Qed.

Lemma pickAllowed_nullish (payload : JsObj) (k : string) :
  notNullish (getProp payload k) = false -> pickAllowed payload !! k = None.
Proof.
  intros Hn. rewrite pickAllowed_lookup, Hn, andb_false_r. reflexivity.
Qed.

Lemma pickAllowed_all_nullish (payload : JsObj) :
  (forall k, k ∈ allowedFields -> notNullish (getProp payload k) = false) ->
  pickAllowed payload = ∅.
Proof.
  intros H. apply map_eq. intros k. rewrite lookup_empty, pickAllowed_lookup.
  destruct (bool_decide (k ∈ allowedFields)) eqn:Hk; [|reflexivity].
  apply bool_decide_eq_true_1 in Hk. rewrite (H k Hk). reflexivity.
Qed.

Lemma accountId_not_allowed : "accountId" ∉ allowedFields.
Proof.
  unfold allowedFields. rewrite !not_elem_of_cons.
  repeat split; try discriminate. apply not_elem_of_nil.
Qed.

Lemma updateBody_lookup (accountId : Z) (settings : JsObj) (k : string) :
  updateBody accountId settings !! k
  = match settings !! k with
    | Some x => Some x
    | None => if decide (k = "accountId") then Some (VNum accountId) else None
    end.
Proof.
  unfold updateBody. rewrite spread2_lookup.
  destruct (settings !! k); [reflexivity|].
  destruct (decide (k = "accountId")) as [->|Hne].
  - apply lookup_singleton_eq.
  - apply lookup_singleton_ne. congruence.
Qed.

(** What goes downstream: the route's account id and allow-listed fields
    of the payload, nothing else. *)
Lemma updateBody_allowed (accountId : Z) (payload : JsObj) (k : string) (x : JsVal) :
  updateBody accountId (pickAllowed payload) !! k = Some x ->
  (k = "accountId" /\ x = VNum accountId)
  \/ (k ∈ allowedFields /\ payload !! k = Some x /\ notNullish x = true).
Proof.
  rewrite updateBody_lookup.
  destruct (pickAllowed payload !! k) as [y|] eqn:Hy.
  - intros [= ->]. right. apply pickAllowed_Some, Hy.
  - destruct (decide (k = "accountId")); [|discriminate].
    intros [= <-]. left. split; [assumption | reflexivity].
Qed.

(** *** The POST handler *)

Lemma postRiskHandler_empty auth accountId payload (s : @State World) :
  pickAllowed payload = ∅ ->
  postRiskHandler auth accountId payload s = (Returned noValidParameters, s).
Proof.
  intros He. unfold Gateway.postRiskHandler, try_catch. rewrite He.
  reflexivity.
Qed.

Lemma postRiskHandler_calls auth accountId payload (s : @State World) :
  pickAllowed payload <> ∅ ->
  calls (snd (postRiskHandler auth accountId payload s))
  = (calls s ++ [updateCall auth accountId (pickAllowed payload)])%list.
Proof.
  intros Hne. unfold Gateway.postRiskHandler, try_catch, bind.
  destruct (size (pickAllowed payload) =? 0)%nat eqn:Hs.
  { apply Nat.eqb_eq, map_size_empty_iff in Hs. contradiction. }
  rewrite setAutoLiqSettings_run. cbv zeta.
  destruct (fst (updateAnswer _ _ _ _)) as [result|err].
  - destruct (truthyText (errorText result)).
    + simpl. repeat (destruct (includes _ _); simpl; try reflexivity).
    + destruct (nullish _ _); simpl; [reflexivity|].
      repeat (destruct (includes _ _); simpl; try reflexivity).
  - simpl. repeat (destruct (includes _ _); simpl; try reflexivity).
Qed.

(** C4: the POST handler forwards only allow-listed fields.  When the
    filter keeps nothing the answer is the 400 validation failure and the
    state is untouched (no downstream call); otherwise exactly one update
    call is logged, and every field of its body is either the route's
    [accountId] or an allow-listed field with the payload's value. *)
Theorem postRiskHandler_allow_list auth accountId (payload : JsObj) (s : @State World) :
  let body := updateBody accountId (pickAllowed payload) in
  (pickAllowed payload = ∅ ->
     postRiskHandler auth accountId payload s = (Returned noValidParameters, s))
  /\ (pickAllowed payload <> ∅ ->
      calls (snd (postRiskHandler auth accountId payload s))
      = (calls s ++ [CallPost auth "/userAccountAutoLiq/updateuserautoliq" body])%list)
  /\ (forall k x, body !! k = Some x ->
        (k = "accountId" /\ x = VNum accountId)
        \/ (k ∈ allowedFields /\ payload !! k = Some x))
  /\ (forall k, k ∉ allowedFields -> k <> "accountId" -> body !! k = None).
Proof.
  intros body. subst body. split; [|split; [|split]].
  - apply postRiskHandler_empty.
  - apply postRiskHandler_calls.
  - intros k x H. apply updateBody_allowed in H as [H|(Hk & Hp & _)]; auto.
  - intros k Hk Hne. rewrite updateBody_lookup, pickAllowed_lookup.
    rewrite bool_decide_eq_false_2 by exact Hk. simpl.
    destruct (decide (k = "accountId")); [contradiction | reflexivity].
Qed.

(** The handler on its own (reached without a payload schema): the
    filter keeps an allow-listed field exactly when the payload has it
    with a value other than [null] and [undefined], a [null] field is
    absent from the body that goes downstream, and all-nullish
    allow-listed fields give the 400 with the state untouched. *)
Lemma postRiskHandler_null_is_absent auth accountId (payload : JsObj) (s : @State World) :
  (forall k x, pickAllowed payload !! k = Some x <->
     k ∈ allowedFields /\ payload !! k = Some x /\ notNullish x = true)
  /\ (forall k, k ∈ allowedFields -> payload !! k = Some VNull ->
      updateBody accountId (pickAllowed payload) !! k = None)
  /\ ((forall k, k ∈ allowedFields -> notNullish (getProp payload k) = false) ->
      postRiskHandler auth accountId payload s = (Returned noValidParameters, s)).
Proof.
  split; [|split].
  - intros k x. apply pickAllowed_Some.
  - intros k Hk Hnull. rewrite updateBody_lookup.
    rewrite pickAllowed_nullish.
    + destruct (decide (k = "accountId")) as [->|]; [|reflexivity].
      destruct (accountId_not_allowed Hk).
    + unfold getProp. rewrite Hnull. reflexivity.
  - intros Hall. apply postRiskHandler_empty, pickAllowed_all_nullish, Hall.
Qed.

(** *** Write, then read *)

Lemma postRiskHandler_success auth accountId payload (s : @State World) (r : JsObj) :
  fst (postRiskHandler auth accountId payload s) = Returned (ok (RiskSetOk r)) ->
  let w := snd (updateAnswer auth accountId (pickAllowed payload) (world s)) in
  snd (postRiskHandler auth accountId payload s)
  = mkState w
      (NodeCache.set (Date_now w) (riskKey accountId) r
         (NodeCache.del (riskKey accountId) (cache s)))
      (calls s ++ [updateCall auth accountId (pickAllowed payload)]).
Proof.
  unfold Gateway.postRiskHandler, try_catch, bind.
  destruct (size (pickAllowed payload) =? 0)%nat; [discriminate|].
  rewrite setAutoLiqSettings_run. cbv zeta.
  destruct (fst (updateAnswer _ _ _ _)) as [result|err].
  - destruct (truthyText (errorText result)).
    + simpl. repeat (destruct (includes _ _); simpl; try discriminate).
    + destruct (nullish _ _) as [autoLiq|]; simpl.
      * intros [= ->]. reflexivity.
      * repeat (destruct (includes _ _); simpl; try discriminate).
  - simpl. repeat (destruct (includes _ _); simpl; try discriminate).
Qed.

(** C3: after a POST that answered 200 with the record [r], the cache
    entry of the account is [r], stamped with the standard TTL from the
    time of the write, whatever was cached before; and a GET for that
    account at any time up to that expiry answers [r] with
    [cached: true] without touching the state (no downstream call). *)
Theorem read_after_write_returns_written
    auth accountId payload (s : @State World) (r : JsObj) :
  fst (postRiskHandler auth accountId payload s) = Returned (ok (RiskSetOk r)) ->
  let s' := snd (postRiskHandler auth accountId payload s) in
  let expiry := Date_now (world s') + NodeCache.stdTTL * 1000 in
  cache s' !! riskKey accountId = Some (NodeCache.mkEntry r expiry)
  /\ (forall auth' (w : World),
        Date_now w <= expiry ->
        let later := mkState w (cache s') (calls s') in
        getRiskHandler auth' accountId later
        = (Returned (ok (RiskGetOk (Some r) true)), later))
  /\ getRiskHandler auth accountId s'
     = (Returned (ok (RiskGetOk (Some r) true)), s').
Proof.
  intros Hok s' expiry.
  pose proof (postRiskHandler_success _ _ _ _ _ Hok) as Hs. cbv zeta in Hs.
  fold s' in Hs.
  assert (Hc : cache s' !! riskKey accountId = Some (NodeCache.mkEntry r expiry)).
  { subst expiry. rewrite Hs. simpl. unfold NodeCache.set.
    apply lookup_insert_eq. }
  assert (Hread : forall auth' (w : World),
             Date_now w <= expiry ->
             getRiskHandler auth' accountId (mkState w (cache s') (calls s'))
             = (Returned (ok (RiskGetOk (Some r) true)),
                mkState w (cache s') (calls s'))).
  { intros auth' w Hw.
    apply (getRiskHandler_hit auth' accountId
             (mkState w (cache s') (calls s')) (NodeCache.mkEntry r expiry)).
    - exact Hc.
    - unfold NodeCache.expired. simpl. apply Z.ltb_ge. exact Hw. }
  split; [exact Hc|]. split; [exact Hread|].
  specialize (Hread auth (world s')).
  destruct s' as [w c l]. simpl in *. apply Hread. subst expiry. simpl.
  unfold NodeCache.stdTTL. lia.
Qed.

End GatewayFacts.

(** ** Connection resolution *)

Section ResolverFacts.

Import Resolver.

Variable verifyAuthToken : string -> Outcome string.

Lemma firebase_missing_or_empty (rtdb : string -> option TokenRow)
    (userId connectionRef : string) :
  match rtdb ("renewAccessTokens/" ++ userId ++ "/" ++ connectionRef) with
  | None => True
  | Some row => truthyText (token row) = false
  end ->
  getConnectionToken_firebase rtdb userId connectionRef
  = Threw (ThrownError ("No Tradovate token found for user " ++ userId
                        ++ ", connection " ++ connectionRef)).
Proof.
  unfold getConnectionToken_firebase.
  destruct (rtdb _) as [row|]; [|reflexivity].
  intros ->. reflexivity.
Qed.

Lemma supabase_miss (tbl : string -> string -> SingleResult)
    (userId connectionRef : string) :
  data (tbl userId connectionRef) = None ->
  exists rest,
    getConnectionToken_supabase tbl userId connectionRef
    = Threw (ThrownError ("No Tradovate token found" ++ rest)).
Proof.
  unfold getConnectionToken_supabase. intros ->.
  destruct (error _); eexists; reflexivity.
Qed.

Lemma supabase_empty_token (tbl : string -> string -> SingleResult)
    (userId connectionRef : string) (row : TokenRow) :
  tbl userId connectionRef = mkSingle (Some row) None ->
  truthyText (token row) = false ->
  getConnectionToken_supabase tbl userId connectionRef
  = Threw (ThrownError ("Token is empty for user " ++ userId
                        ++ ", connection " ++ connectionRef)).
Proof.
  unfold getConnectionToken_supabase. intros -> Ht. simpl. rewrite Ht.
  reflexivity.
Qed.

(** A not-found failure is answered 404 unless its text also contains one
    of the two identity-failure phrases tested first. *)
Lemma authFailure_not_found (rest : string) :
  let message := "No Tradovate token found" ++ rest in
  includes message "Firebase ID token has expired" = false ->
  includes message "Decoding Firebase" = false ->
  authFailure (ThrownError message) = Rejected 404 message.
Proof.
  intros message H1 H2. unfold authFailure.
  cbn [messageOr]. fold message. rewrite H1, H2. cbn [orb].
  unfold message at 1. rewrite includes_app_l. reflexivity.
Qed.

(** Whatever the lookup throws, the middleware answers the request
    itself: no client is built. *)
Lemma authenticate_lookup_failure
    (getConnectionToken : string -> string -> Outcome Connection)
    (missing : string) (req : Request) :
  (forall userId connectionRef,
      exists err, getConnectionToken userId connectionRef = Threw err) ->
  exists code text,
    authenticate verifyAuthToken getConnectionToken missing req
    = Rejected code text.
Proof.
  intros Hfail. unfold authenticate.
  destruct (negb _ || negb _); [eauto|].
  destruct (String.eqb _ ""); [eauto|].
  unfold resolveClient.
  destruct (verifyAuthToken _) as [userId|err]; [|unfold authFailure].
  - destruct (negb (truthyText _)); [eauto|].
    destruct (Hfail userId
                (default "" (nullish (payload_connectionRef req)
                               (nullish (query_connectionRef req)
                                  (x_connection_ref req))))) as [err ->].
    unfold authFailure.
    destruct (_ || _); [eauto|]. destruct (includes _ _); eauto.
  - destruct (_ || _); [eauto|]. destruct (includes _ _); eauto.
Qed.

Lemma substring_all (s : string) : String.substring 0 (String.length s) s = s.
Proof. induction s as [|a s IH]; simpl; [reflexivity | rewrite IH; reflexivity]. Qed.

Lemma slice_bearer (idToken : string) : slice ("Bearer " ++ idToken) 7 = idToken.
Proof.
  unfold slice. simpl. rewrite Nat.sub_0_r. apply substring_all.
Qed.

(** A well-formed request whose lookup throws ends in the [catch] block. *)
Lemma authenticate_lookup_throws
    (getConnectionToken : string -> string -> Outcome Connection)
    (missing : string) (req : Request) (idToken userId ref : string) (err : Thrown) :
  authorization req = Some ("Bearer " ++ idToken) ->
  idToken <> "" ->
  verifyAuthToken idToken = Returned userId ->
  nullish (payload_connectionRef req)
    (nullish (query_connectionRef req) (x_connection_ref req)) = Some ref ->
  ref <> "" ->
  getConnectionToken userId ref = Threw err ->
  authenticate verifyAuthToken getConnectionToken missing req = authFailure err.
Proof.
  intros Ha Hid Hv Hr Hne Hg. unfold authenticate.
  rewrite Ha. cbn [default from_option id truthyText].
  change (String.eqb ("Bearer " ++ idToken) "") with false.
  unfold startsWith. rewrite prefix_app. cbn [negb orb].
  rewrite slice_bearer.
  destruct (String.eqb_spec idToken ""); [contradiction|].
  unfold resolveClient. rewrite Hv, Hr. cbn [truthyText default from_option id].
  destruct (String.eqb_spec ref ""); [contradiction|]. cbn [negb].
  rewrite Hg. reflexivity.
Qed.

(** The Express middleware on a missing or token-less record: 404. *)
Lemma firebaseAuth_missing_is_404
    (rtdb : string -> option TokenRow) (req : Request)
    (idToken userId ref : string) :
  let message := "No Tradovate token found" ++
                 (" for user " ++ userId ++ ", connection " ++ ref) in
  authorization req = Some ("Bearer " ++ idToken) ->
  idToken <> "" ->
  verifyAuthToken idToken = Returned userId ->
  nullish (payload_connectionRef req)
    (nullish (query_connectionRef req) (x_connection_ref req)) = Some ref ->
  ref <> "" ->
  match rtdb ("renewAccessTokens/" ++ userId ++ "/" ++ ref) with
  | None => True
  | Some row => truthyText (token row) = false
  end ->
  includes message "Firebase ID token has expired" = false ->
  includes message "Decoding Firebase" = false ->
  firebaseAuth verifyAuthToken rtdb req = Rejected 404 message.
Proof.
  intros message Ha Hid Hv Hr Hne Hrow H1 H2. unfold firebaseAuth.
  rewrite (authenticate_lookup_throws _ _ _ idToken userId ref
             (ThrownError message)); try assumption.
  - apply authFailure_not_found; assumption.
  - apply firebase_missing_or_empty, Hrow.
Qed.

(** The Hapi scheme on a record whose token is empty: the failure text
    matches none of the tested phrases, so the default 401 applies. *)
Lemma authPlugin_empty_token_default
    (tbl : string -> string -> SingleResult) (req : Request)
    (idToken userId ref : string) (row : TokenRow) :
  let message := "Token is empty for user " ++ userId ++ ", connection " ++ ref in
  authorization req = Some ("Bearer " ++ idToken) ->
  idToken <> "" ->
  verifyAuthToken idToken = Returned userId ->
  nullish (payload_connectionRef req)
    (nullish (query_connectionRef req) (x_connection_ref req)) = Some ref ->
  ref <> "" ->
  tbl userId ref = mkSingle (Some row) None ->
  truthyText (token row) = false ->
  includes message "Firebase ID token has expired" = false ->
  includes message "Decoding Firebase" = false ->
  includes message "No Tradovate token found" = false ->
  authPlugin verifyAuthToken tbl req = Rejected 401 message.
Proof.
  intros message Ha Hid Hv Hr Hne Ht Hrow H1 H2 H3. unfold authPlugin.
  rewrite (authenticate_lookup_throws _ _ _ idToken userId ref
             (ThrownError message)); try assumption.
  - unfold authFailure. cbn [messageOr]. rewrite H1, H2, H3. reflexivity.
  - apply (supabase_empty_token _ _ _ row); assumption.
Qed.

End ResolverFacts.

(** C9, at the input where the code departs from it: the stored record
    exists but its token is empty.  The Hapi scheme (Supabase lookup)
    answers 401 with "Token is empty ...", where the Express middleware
    (Firebase lookup) answers 404 with "No Tradovate token found ..."
    for the same record. *)
Theorem authPlugin_empty_token_is_401 :
  Resolver.authPlugin Stub.verify Stub.table Stub.request
  = Resolver.Rejected 401 "Token is empty for user u1, connection TS-1"
  /\ Resolver.firebaseAuth Stub.verify Stub.rtdb Stub.request
     = Resolver.Rejected 404 "No Tradovate token found for user u1, connection TS-1".
Proof. split; reflexivity. Qed.

(** ** Closed instances on the scripted downstream *)

(** C1, as stated, fails: both lookups return a record, neither with a
    truthy [id], and the read returns nothing instead of the overlay;
    likewise with a record on the owner side only. *)
Lemma getAutoLiqSettings_drops_unidentified_records :
  let user : JsObj := {[ "id" := VNum 0; "dailyLossAutoLiq" := VNum 500 ]} in
  let perm : JsObj := {[ "id" := VNum 0; "dailyProfitAutoLiq" := VNum 1000 ]} in
  let both :=
    fst (getAutoLiqSettings (Stub.get (Returned [user]) (Returned [perm]))
           Stub.auth 42 Stub.fresh) in
  let ownerOnly :=
    fst (getAutoLiqSettings (Stub.get (Returned [user]) (Returned []))
           Stub.auth 42 Stub.fresh) in
  both = Returned []
  /\ both <> Returned [spread2 perm user]
  /\ ownerOnly = Returned []
  /\ ownerOnly <> Returned [user].
Proof.
  cbv zeta.
  assert (Hb : fst (getAutoLiqSettings
                      (Stub.get (Returned [{[ "id" := VNum 0; "dailyLossAutoLiq" := VNum 500 ]}])
                                (Returned [{[ "id" := VNum 0; "dailyProfitAutoLiq" := VNum 1000 ]}]))
                      Stub.auth 42 Stub.fresh) = Returned []) by (vm_compute; reflexivity).
  assert (Ho : fst (getAutoLiqSettings
                      (Stub.get (Returned [{[ "id" := VNum 0; "dailyLossAutoLiq" := VNum 500 ]}])
                                (Returned []))
                      Stub.auth 42 Stub.fresh) = Returned []) by (vm_compute; reflexivity).
  rewrite Hb, Ho. repeat split; discriminate.
Qed.

Lemma getAutoLiqSettings_merges_identified_witness :
  fst (getAutoLiqSettings
         (Stub.get (Returned [Stub.ownerRecord]) (Returned [Stub.permRecord]))
         Stub.auth 42 Stub.fresh)
  = Returned [ {[ "id" := VNum 42;
                  "dailyLossAutoLiq" := VNum 500;
                  "dailyProfitAutoLiq" := VNum 1000 ]} ].
Proof.
  destruct (getAutoLiqSettings_merges_identified
              (Stub.get (Returned [Stub.ownerRecord]) (Returned [Stub.permRecord]))
              Stub.auth 42 Stub.fresh [Stub.ownerRecord] [Stub.permRecord]
              eq_refl eq_refl eq_refl)
    as (merged & Hrun & Hm & _).
  rewrite Hrun, Hm. vm_compute. reflexivity.
Defined.

Lemma getAutoLiqSettings_failures_witness :
  fst (getAutoLiqSettings
         (Stub.get (Threw Stub.unauthorized) (Returned [Stub.permRecord]))
         Stub.auth 42 Stub.fresh)
  = Returned [Stub.permRecord]
  /\ fst (getAutoLiqSettings
            (Stub.get (Returned [Stub.ownerRecord]) (Threw Stub.serverError))
            Stub.auth 42 Stub.fresh)
     = Threw Stub.serverError.
Proof.
  split.
  - pose proof (getAutoLiqSettings_failures
                  (Stub.get (Threw Stub.unauthorized) (Returned [Stub.permRecord]))
                  Stub.auth 42 Stub.fresh) as (H & _).
    rewrite (H Stub.unauthorized [Stub.permRecord] eq_refl eq_refl eq_refl).
    vm_compute. reflexivity.
  - pose proof (getAutoLiqSettings_failures
                  (Stub.get (Returned [Stub.ownerRecord]) (Threw Stub.serverError))
                  Stub.auth 42 Stub.fresh) as (_ & _ & _ & _ & H).
    exact (H Stub.serverError [Stub.ownerRecord] eq_refl eq_refl eq_refl).
Defined.

Lemma read_without_identifiable_record_witness :
  fst (getAutoLiqSettings (Stub.get (Returned []) (Threw Stub.unauthorized))
         Stub.auth 42 Stub.fresh) = Returned []
  /\ fst (getRiskHandler Stub.now (Stub.get (Returned []) (Threw Stub.unauthorized))
            Stub.auth 42 Stub.fresh)
     = Returned (ok (RiskGetOk None false)).
Proof.
  destruct (read_without_identifiable_record Stub.now
              (Stub.get (Returned []) (Threw Stub.unauthorized))
              Stub.auth 42 Stub.fresh [] [] eq_refl eq_refl eq_refl eq_refl)
    as [H1 H2].
  split; [exact H1 | exact (H2 eq_refl)].
Defined.

(** C7, as stated, fails: the owner record of the scenario has no [id],
    so the read keeps nothing and the answer carries [autoLiq: null]. *)
Lemma getRiskHandler_scenario_answers_null :
  let record : JsObj := {[ "dailyLossAutoLiq" := VNum 500 ]} in
  let answer :=
    fst (getRiskHandler Stub.now
           (Stub.get (Returned [record]) (Threw Stub.unauthorized))
           Stub.auth 42 Stub.fresh) in
  answer = Returned (ok (RiskGetOk None false))
  /\ answer <> Returned (ok (RiskGetOk (Some record) false)).
Proof.
  cbv zeta.
  assert (H : fst (getRiskHandler Stub.now
                     (Stub.get (Returned [{[ "dailyLossAutoLiq" := VNum 500 ]}])
                               (Threw Stub.unauthorized))
                     Stub.auth 42 Stub.fresh)
              = Returned (ok (RiskGetOk None false))) by (vm_compute; reflexivity).
  rewrite H. split; [reflexivity | discriminate].
Qed.

Lemma getRiskHandler_owner_record_perm_401_witness :
  fst (getRiskHandler Stub.now
         (Stub.get (Returned [Stub.ownerRecord]) (Threw Stub.unauthorized))
         Stub.auth 42 Stub.fresh)
  = Returned (ok (RiskGetOk (Some Stub.ownerRecord) false)).
Proof.
  apply (getRiskHandler_owner_record_perm_401 Stub.now
           (Stub.get (Returned [Stub.ownerRecord]) (Threw Stub.unauthorized))
           Stub.auth Stub.fresh 42 Stub.unauthorized).
  - lia.
  - reflexivity.
  - reflexivity.
  - reflexivity.
  - reflexivity.
Defined.

Lemma getRiskHandler_cache_hit_witness :
  getRiskHandler Stub.now (Stub.get (Threw Stub.serverError) (Threw Stub.serverError))
    Stub.auth 42 Stub.warm
  = (Returned (ok (RiskGetOk (Some Stub.ownerRecord) true)), Stub.warm).
Proof.
  pose proof (getRiskHandler_cache_hit Stub.now
                (Stub.get (Threw Stub.serverError) (Threw Stub.serverError))
                Stub.auth 42 Stub.warm
                (NodeCache.mkEntry Stub.ownerRecord 3601000) eq_refl eq_refl)
    as (Ha & _ & _ & Hs).
  apply injective_projections; [exact Ha | exact Hs].
Defined.

Lemma setAutoLiqSettings_reads_answer_witness :
  (exists message,
      fst (setAutoLiqSettings (Stub.post (Returned Stub.refusal)) Stub.auth 42
             (pickAllowed Stub.writePayload) Stub.fresh)
      = Threw (ThrownError message)
      /\ includes message "Should be account owner" = true)
  /\ fst (setAutoLiqSettings (Stub.post (Returned Stub.ownerShape)) Stub.auth 42
            (pickAllowed Stub.writePayload) Stub.fresh)
     = Returned Stub.writtenRecord
  /\ fst (setAutoLiqSettings (Stub.post (Returned Stub.permShape)) Stub.auth 42
            (pickAllowed Stub.writePayload) Stub.fresh)
     = Returned Stub.writtenRecord
  /\ fst (setAutoLiqSettings (Stub.post (Returned Stub.noEntity)) Stub.auth 42
            (pickAllowed Stub.writePayload) Stub.fresh)
     = Threw (ThrownError "No auto-liq entity returned for account 42").
Proof.
  split; [|split; [|split]].
  - pose proof (setAutoLiqSettings_reads_answer (Stub.post (Returned Stub.refusal))
                  Stub.auth 42 (pickAllowed Stub.writePayload) Stub.fresh
                  Stub.refusal eq_refl) as (H & _).
    apply (H "Should be account owner"); [reflexivity | discriminate].
  - pose proof (setAutoLiqSettings_reads_answer (Stub.post (Returned Stub.ownerShape))
                  Stub.auth 42 (pickAllowed Stub.writePayload) Stub.fresh
                  Stub.ownerShape eq_refl) as (_ & H & _).
    apply H; reflexivity.
  - pose proof (setAutoLiqSettings_reads_answer (Stub.post (Returned Stub.permShape))
                  Stub.auth 42 (pickAllowed Stub.writePayload) Stub.fresh
                  Stub.permShape eq_refl) as (_ & _ & H & _).
    apply H; reflexivity.
  - pose proof (setAutoLiqSettings_reads_answer (Stub.post (Returned Stub.noEntity))
                  Stub.auth 42 (pickAllowed Stub.writePayload) Stub.fresh
                  Stub.noEntity eq_refl) as (_ & _ & _ & H).
    apply H; reflexivity.
Defined.

Lemma postRiskHandler_allow_list_witness :
  postRiskHandler Stub.now (Stub.post (Returned Stub.ownerShape)) Stub.auth 42
    {[ "connectionRef" := VStr "TS-1" ]} Stub.fresh
  = (Returned noValidParameters, Stub.fresh)
  /\ calls (snd (postRiskHandler Stub.now (Stub.post (Returned Stub.ownerShape))
                   Stub.auth 42 Stub.writePayload Stub.fresh))
     = [CallPost Stub.auth "/userAccountAutoLiq/updateuserautoliq"
          {[ "accountId" := VNum 42;
             "dailyLossAutoLiq" := VNum 500;
             "dailyProfitAutoLiq" := VNum 1000 ]}].
Proof.
  split.
  - apply (postRiskHandler_allow_list Stub.now (Stub.post (Returned Stub.ownerShape))
             Stub.auth 42 {[ "connectionRef" := VStr "TS-1" ]} Stub.fresh).
    vm_compute. reflexivity.
  - pose proof (postRiskHandler_allow_list Stub.now
                  (Stub.post (Returned Stub.ownerShape))
                  Stub.auth 42 Stub.writePayload Stub.fresh) as (_ & H & _).
    rewrite H.
    + vm_compute. reflexivity.
    + intros He. apply (f_equal (fun m : JsObj => m !! "dailyLossAutoLiq")) in He.
      vm_compute in He. discriminate.
Defined.

Lemma read_after_write_returns_written_witness :
  let written :=
    postRiskHandler Stub.now (Stub.post (Returned Stub.ownerShape)) Stub.auth 42
      Stub.writePayload Stub.warm in
  fst written = Returned (ok (RiskSetOk Stub.writtenRecord))
  /\ getRiskHandler Stub.now (Stub.get (Threw Stub.serverError) (Threw Stub.serverError))
       Stub.auth 42 (snd written)
     = (Returned (ok (RiskGetOk (Some Stub.writtenRecord) true)), snd written).
Proof.
  cbv zeta. split; [vm_compute; reflexivity|].
  apply (read_after_write_returns_written Stub.now
           (Stub.get (Threw Stub.serverError) (Threw Stub.serverError))
           (Stub.post (Returned Stub.ownerShape))
           Stub.auth 42 Stub.writePayload Stub.warm Stub.writtenRecord).
  vm_compute. reflexivity.
Defined.

(** ** Further properties of [microservice/cache.ts] *)

Lemma to_int_proper (z : Z) : Z.to_int z <> Decimal.Pos Decimal.Nil /\ Z.to_int z <> Decimal.Neg Decimal.Nil.
Proof.
  split; intros H; pose proof (DecimalZ.of_to z) as Hz; rewrite H in Hz;
    simpl in Hz; subst z; discriminate.
Qed.

(** [String(n)] tells integers apart. *)
Lemma String_of_inj (a b : Z) : String_of a = String_of b -> a = b.
Proof.
  unfold String_of. intros H.
  apply DecimalZ.to_int_inj.
  pose proof (NilZero.isi (Z.to_int a)) as Ha.
  pose proof (NilZero.isi (Z.to_int b)) as Hb.
  destruct (to_int_proper a) as [Ha1 Ha2].
  destruct (to_int_proper b) as [Hb1 Hb2].
  specialize (Ha Ha1 Ha2). specialize (Hb Hb1 Hb2).
  rewrite H in Ha. rewrite Ha in Hb. congruence.
Qed.

(** Distinct accounts have distinct cache keys. *)
Lemma riskKey_inj (a b : Z) : riskKey a = riskKey b -> a = b.
Proof.
  unfold riskKey. intros H. apply String_of_inj.
  change ("risk:" ++ String_of a) with
    (String "r" (String "i" (String "s" (String "k" (String ":" (String_of a)))))) in H.
  change ("risk:" ++ String_of b) with
    (String "r" (String "i" (String "s" (String "k" (String ":" (String_of b)))))) in H.
  injection H as H. exact H.
Qed.

Section CacheFacts.

Context {World : Type}.
Variable Date_now : World -> Z.

Local Abbreviation getCachedRisk := (getCachedRisk Date_now).
Local Abbreviation setCachedRisk := (setCachedRisk Date_now).

(** X1: a record stored with [setCachedRisk] is what [getCachedRisk]
    returns for that account at any time up to one hour (3600000 ms)
    after the store, and the read leaves the cache as it is. *)
Theorem cached_risk_round_trip
    (accountId : Z) (settings : JsObj) (s : @State World) (w : World) :
  Date_now w <= Date_now (world s) + 3600000 ->
  let stored := snd (setCachedRisk accountId settings s) in
  let later := mkState w (cache stored) (calls stored) in
  getCachedRisk accountId later = (Returned (Some settings), later).
Proof.
  intros Hw stored later.
  apply (getCachedRisk_hit Date_now accountId later
           (NodeCache.mkEntry settings (Date_now (world s) + NodeCache.stdTTL * 1000))).
  - subst later stored. simpl. unfold NodeCache.set. apply lookup_insert_eq.
  - unfold NodeCache.expired, NodeCache.stdTTL. subst later. simpl.
    apply Z.ltb_ge. lia.
Qed.

(** X2: once more than one hour has passed since the store, the read
    misses and the entry is removed from the cache. *)
Theorem cached_risk_expires
    (accountId : Z) (settings : JsObj) (s : @State World) (w : World) :
  Date_now (world s) + 3600000 < Date_now w ->
  let stored := snd (setCachedRisk accountId settings s) in
  let later := mkState w (cache stored) (calls stored) in
  fst (getCachedRisk accountId later) = Returned None
  /\ cache (snd (getCachedRisk accountId later)) !! riskKey accountId = None.
Proof.
  intros Hw stored later. subst later stored.
  unfold Gateway.getCachedRisk, Gateway.setCachedRisk, NodeCache.get,
    NodeCache.set. simpl.
  rewrite lookup_insert_eq. unfold NodeCache.expired, NodeCache.stdTTL. simpl.
  destruct (Z.ltb_spec (Date_now (world s) + 3600 * 1000) (Date_now w)); [|lia].
  simpl. split; [reflexivity | apply lookup_delete_eq].
Qed.

(** X3: after [invalidateCachedRisk] the account reads as not cached, at
    any time, whatever was stored before. *)
Theorem invalidated_risk_misses (accountId : Z) (s : @State World) (w : World) :
  let cleared := snd (invalidateCachedRisk accountId s) in
  let later := mkState w (cache cleared) (calls cleared) in
  getCachedRisk accountId later = (Returned None, later).
Proof.
  intros cleared later. apply getCachedRisk_miss.
  subst later cleared. simpl. unfold NodeCache.del. apply lookup_delete_eq.
Qed.

(** X4: storing, invalidating or reading one account never changes what
    is cached for another account. *)
Theorem cached_risk_accounts_independent
    (a b : Z) (settings : JsObj) (s : @State World) :
  a <> b ->
  cache (snd (setCachedRisk a settings s)) !! riskKey b = cache s !! riskKey b
  /\ cache (snd (invalidateCachedRisk a s)) !! riskKey b = cache s !! riskKey b
  /\ cache (snd (getCachedRisk a s)) !! riskKey b = cache s !! riskKey b.
Proof.
  intros Hab.
  assert (Hk : riskKey a <> riskKey b) by (intros H; apply Hab, riskKey_inj, H).
  split; [|split].
  - simpl. unfold NodeCache.set. apply lookup_insert_ne, Hk.
  - simpl. unfold NodeCache.del. apply lookup_delete_ne, Hk.
  - unfold Gateway.getCachedRisk, NodeCache.get.
    destruct (cache s !! riskKey a) as [e|]; [|reflexivity].
    destruct (NodeCache.expired _ e); simpl; [|reflexivity].
    apply lookup_delete_ne, Hk.
Qed.

End CacheFacts.

(** ** Further properties of the GET handler *)

Section ReadFacts.

Context {World : Type}.
Variable Date_now : World -> Z.
Variable http_get :
  TradovateAuth -> string -> JsObj -> World -> Outcome (list JsObj) * World.

Local Abbreviation getCachedRisk := (getCachedRisk Date_now).
Local Abbreviation getAutoLiqSettings := (getAutoLiqSettings http_get).
Local Abbreviation getRiskHandler := (getRiskHandler Date_now http_get).
Local Abbreviation ownerAnswer := (ownerAnswer http_get).
Local Abbreviation permAnswer := (permAnswer http_get).

(** The cache lookup that opens the handler, and the state it leaves
    (an expired entry is dropped on the way). *)
Local Abbreviation looked accountId s :=
  (NodeCache.get (Date_now (world s)) (riskKey accountId) (cache s)).
Local Abbreviation afterLookup accountId s :=
  (mkState (world s) (snd (looked accountId s)) (calls s)).

Local Abbreviation ownerCall auth accountId :=
  (CallGet auth "/userAccountAutoLiq/deps" (masterid accountId)).
Local Abbreviation permCall auth accountId :=
  (CallGet auth "/permissionedAccountAutoLiq/deps" (masterid accountId)).
Local Abbreviation fetched := (fetched Date_now).

Lemma getCachedRisk_run (accountId : Z) (s : @State World) :
  getCachedRisk accountId s
  = (Returned (fst (looked accountId s)), afterLookup accountId s).
Proof.
  unfold Gateway.getCachedRisk. destruct (NodeCache.get _ _ _); reflexivity.
Qed.

Lemma looked_expired (accountId : Z) (s : @State World) (e : NodeCache.Entry) :
  cache s !! riskKey accountId = Some e ->
  NodeCache.expired (Date_now (world s)) e = true ->
  looked accountId s = (None, delete (riskKey accountId) (cache s)).
Proof. intros Hc He. unfold NodeCache.get. rewrite Hc, He. reflexivity. Qed.

Lemma getRiskHandler_miss_settled auth accountId (s : @State World) us ps :
  fst (looked accountId s) = None ->
  settled (fst (ownerAnswer auth accountId (world s))) = Some us ->
  settled (fst (permAnswer auth accountId (world s))) = Some ps ->
  getRiskHandler auth accountId s
  = (Returned (ok (RiskGetOk (head (mergeSettings us ps)) false)),
     fetched accountId
       (afterGet
          (afterGet (afterLookup accountId s) auth "/userAccountAutoLiq/deps"
             accountId (snd (ownerAnswer auth accountId (world s))))
          auth "/permissionedAccountAutoLiq/deps" accountId
          (snd (permAnswer auth accountId (world s))))
       (mergeSettings us ps)).
Proof.
  intros Hm Ho Hp.
  unfold Gateway.getRiskHandler, try_catch, bind.
  rewrite getCachedRisk_run, Hm.
  rewrite (getAutoLiqSettings_settled http_get auth accountId
             (afterLookup accountId s) us ps) by assumption.
  unfold EndStates.fetched. destruct (head (mergeSettings us ps)); reflexivity.
Qed.

(** A failure [getAutoLiqSettings] lets through is never read as an
    expired token by the handler's [catch]. *)
Lemma rethrown_not_token_expired (err : Thrown) :
  isDenied err = false ->
  includes (messageOr "Unknown error" err) "401"
  || includes (messageOr "Unknown error" err) "Access is denied" = false.
Proof.
  destruct err as [m|]; [|reflexivity]. unfold isDenied. simpl. auto.
Qed.

Lemma settled_None (r : Outcome (list JsObj)) :
  settled r = None -> exists err, r = Threw err /\ isDenied err = false.
Proof.
  destruct r as [xs|err]; simpl; [discriminate|].
  destruct (isDenied err) eqn:Hd; [discriminate|]. eauto.
Qed.

Lemma getRiskHandler_miss_owner_rethrown auth accountId (s : @State World) err :
  fst (looked accountId s) = None ->
  fst (ownerAnswer auth accountId (world s)) = Threw err ->
  isDenied err = false ->
  getRiskHandler auth accountId s
  = (Returned (mkResponse 500 (Failure (messageOr "Unknown error" err) None)),
     afterGet (afterLookup accountId s) auth "/userAccountAutoLiq/deps"
       accountId (snd (ownerAnswer auth accountId (world s)))).
Proof.
  intros Hm Ho Hd.
  unfold Gateway.getRiskHandler, try_catch, bind.
  rewrite getCachedRisk_run, Hm.
  rewrite (getAutoLiqSettings_owner_rethrown http_get auth accountId
             (afterLookup accountId s) err) by assumption.
  rewrite rethrown_not_token_expired by exact Hd. reflexivity.
Qed.

Lemma getRiskHandler_miss_perm_rethrown auth accountId (s : @State World) us err :
  fst (looked accountId s) = None ->
  settled (fst (ownerAnswer auth accountId (world s))) = Some us ->
  fst (permAnswer auth accountId (world s)) = Threw err ->
  isDenied err = false ->
  getRiskHandler auth accountId s
  = (Returned (mkResponse 500 (Failure (messageOr "Unknown error" err) None)),
     afterGet
       (afterGet (afterLookup accountId s) auth "/userAccountAutoLiq/deps"
          accountId (snd (ownerAnswer auth accountId (world s))))
       auth "/permissionedAccountAutoLiq/deps" accountId
       (snd (permAnswer auth accountId (world s)))).
Proof.
  intros Hm Ho Hp Hd.
  unfold Gateway.getRiskHandler, try_catch, bind.
  rewrite getCachedRisk_run, Hm.
  unfold Gateway.getAutoLiqSettings, bind.
  rewrite (depsOrEmpty_settled http_get auth _ accountId
             (afterLookup accountId s) us) by exact Ho.
  rewrite (depsOrEmpty_rethrown http_get auth _ accountId _ err)
    by assumption.
  rewrite rethrown_not_token_expired by exact Hd. reflexivity.
Qed.

(** X5: read-through.  A GET that misses the cache (no entry, or an
    expired one) and whose lookups merge to a record [m] stores [m]; a GET
    for the account at any time up to one hour after that fetch answers
    [m] with [cached: true] and touches nothing. *)
Theorem read_through_populates_cache
    auth accountId (s : @State World) (us ps : list JsObj) (m : JsObj) :
  fst (looked accountId s) = None ->
  settled (fst (ownerAnswer auth accountId (world s))) = Some us ->
  settled (fst (permAnswer auth accountId (world s))) = Some ps ->
  mergeSettings us ps = [m] ->
  let s' := snd (getRiskHandler auth accountId s) in
  fst (getRiskHandler auth accountId s) = Returned (ok (RiskGetOk (Some m) false))
  /\ forall auth' (w : World),
       Date_now w <= Date_now (world s') + 3600000 ->
       let later := mkState w (cache s') (calls s') in
       getRiskHandler auth' accountId later
       = (Returned (ok (RiskGetOk (Some m) true)), later).
Proof.
  intros Hm Ho Hp Hmerge s'. subst s'.
  rewrite (getRiskHandler_miss_settled _ _ _ us ps) by assumption.
  rewrite Hmerge. unfold EndStates.fetched. cbn [head fst snd].
  split; [reflexivity|]. intros auth' w Hw.
  apply (getRiskHandler_hit Date_now http_get auth' accountId _
           (NodeCache.mkEntry m
              (Date_now (snd (permAnswer auth accountId (world s)))
               + NodeCache.stdTTL * 1000))).
  - simpl. unfold NodeCache.set. apply lookup_insert_eq.
  - unfold NodeCache.expired, NodeCache.stdTTL. simpl in *.
    apply Z.ltb_ge. lia.
Qed.

(** X6: "no settings" is not cached.  When nothing was cached and the
    lookups merge to nothing, the GET answers [autoLiq: null], leaves the
    account without a cache entry, and has logged both lookups, so the
    next read asks downstream again. *)
Theorem no_settings_not_cached
    auth accountId (s : @State World) (us ps : list JsObj) :
  cache s !! riskKey accountId = None ->
  settled (fst (ownerAnswer auth accountId (world s))) = Some us ->
  settled (fst (permAnswer auth accountId (world s))) = Some ps ->
  mergeSettings us ps = [] ->
  let s' := snd (getRiskHandler auth accountId s) in
  fst (getRiskHandler auth accountId s) = Returned (ok (RiskGetOk None false))
  /\ cache s' !! riskKey accountId = None
  /\ calls s' = (calls s ++ [ownerCall auth accountId; permCall auth accountId])%list.
Proof.
  intros Hc Ho Hp Hmerge s'. subst s'.
  assert (Hl : looked accountId s = (None, cache s)).
  { unfold NodeCache.get. rewrite Hc. reflexivity. }
  rewrite (getRiskHandler_miss_settled _ _ _ us ps);
    [|rewrite Hl; reflexivity|assumption|assumption].
  rewrite Hmerge, Hl. unfold EndStates.fetched, afterGet. cbn [head fst snd cache calls].
  split; [reflexivity|]. split; [exact Hc|].
  rewrite <- app_assoc. reflexivity.
Qed.

(** X7: an entry older than its TTL is never served.  With an expired
    entry cached, the GET asks downstream (both lookups are logged when
    they complete) and answers what they merge to with [cached: false],
    whatever the stale entry held. *)
Theorem expired_entry_refetched
    auth accountId (s : @State World) (e : NodeCache.Entry) (us ps : list JsObj) :
  cache s !! riskKey accountId = Some e ->
  NodeCache.t e < Date_now (world s) ->
  settled (fst (ownerAnswer auth accountId (world s))) = Some us ->
  settled (fst (permAnswer auth accountId (world s))) = Some ps ->
  let s' := snd (getRiskHandler auth accountId s) in
  fst (getRiskHandler auth accountId s)
  = Returned (ok (RiskGetOk (head (mergeSettings us ps)) false))
  /\ calls s' = (calls s ++ [ownerCall auth accountId; permCall auth accountId])%list.
Proof.
  intros Hc Ht Ho Hp s'. subst s'.
  assert (Hl : looked accountId s = (None, delete (riskKey accountId) (cache s))).
  { apply (looked_expired _ _ e); [exact Hc|].
    unfold NodeCache.expired. apply Z.ltb_lt, Ht. }
  rewrite (getRiskHandler_miss_settled _ _ _ us ps);
    [|rewrite Hl; reflexivity|assumption|assumption].
  split; [reflexivity|].
  unfold EndStates.fetched, afterGet.
  destruct (head (mergeSettings us ps)); cbn [snd calls];
    rewrite <- app_assoc; reflexivity.
Qed.

(** X8: the GET handler always answers, with status 200 or 500.  Its
    401 [TOKEN_EXPIRED] branch cannot be taken: the failures whose message
    contains "401" or "Access is denied" are the ones [getAutoLiqSettings]
    swallows. *)
Theorem getRiskHandler_status auth accountId (s : @State World) :
  exists resp,
    fst (getRiskHandler auth accountId s) = Returned resp
    /\ (statusCode resp = 200 \/ statusCode resp = 500).
Proof.
  destruct (fst (looked accountId s)) as [hit|] eqn:Hl.
  - unfold Gateway.getRiskHandler, try_catch, bind.
    rewrite getCachedRisk_run, Hl. eexists. split; [reflexivity | left; reflexivity].
  - destruct (settled (fst (ownerAnswer auth accountId (world s)))) as [us|] eqn:Ho.
    + destruct (settled (fst (permAnswer auth accountId (world s)))) as [ps|] eqn:Hp.
      * rewrite (getRiskHandler_miss_settled _ _ _ us ps) by assumption.
        eexists. split; [reflexivity | left; reflexivity].
      * apply settled_None in Hp as (err & Hp & Hd).
        rewrite (getRiskHandler_miss_perm_rethrown _ _ _ us err) by assumption.
        eexists. split; [reflexivity | right; reflexivity].
    + apply settled_None in Ho as (err & Ho & Hd).
      rewrite (getRiskHandler_miss_owner_rethrown _ _ _ err) by assumption.
      eexists. split; [reflexivity | right; reflexivity].
Qed.

(** X9: a read never writes downstream.  The GET handler logs nothing on
    a cache hit, the owner lookup alone when that lookup fails with a
    failure it rethrows, and otherwise the owner lookup followed by the
    permissioned lookup. *)
Theorem getRiskHandler_calls auth accountId (s : @State World) :
  let s' := snd (getRiskHandler auth accountId s) in
  let owner := fst (ownerAnswer auth accountId (world s)) in
  (forall hit, fst (looked accountId s) = Some hit -> calls s' = calls s)
  /\ (fst (looked accountId s) = None -> settled owner = None ->
      calls s' = (calls s ++ [ownerCall auth accountId])%list)
  /\ (fst (looked accountId s) = None -> settled owner <> None ->
      calls s' = (calls s ++ [ownerCall auth accountId; permCall auth accountId])%list).
Proof.
  intros s' owner. subst s' owner. split; [|split].
  - intros hit Hl. unfold Gateway.getRiskHandler, try_catch, bind.
    rewrite getCachedRisk_run, Hl. reflexivity.
  - intros Hl Ho. apply settled_None in Ho as (err & Ho & Hd).
    rewrite (getRiskHandler_miss_owner_rethrown _ _ _ err) by assumption.
    reflexivity.
  - intros Hl Ho.
    destruct (settled (fst (ownerAnswer auth accountId (world s)))) as [us|] eqn:Hus;
      [|contradiction].
    destruct (settled (fst (permAnswer auth accountId (world s)))) as [ps|] eqn:Hp.
    + rewrite (getRiskHandler_miss_settled _ _ _ us ps) by assumption.
      unfold EndStates.fetched, afterGet.
      destruct (head (mergeSettings us ps)); cbn [snd calls];
        rewrite <- app_assoc; reflexivity.
    + apply settled_None in Hp as (err & Hp & Hd).
      rewrite (getRiskHandler_miss_perm_rethrown _ _ _ us err) by assumption.
      unfold afterGet. cbn [snd calls]. rewrite <- app_assoc. reflexivity.
Qed.

End ReadFacts.

(** ** Further properties of the POST handler *)

Lemma prefix_app_r (sub b c : string) :
  String.prefix sub b = true -> String.prefix sub (b ++ c) = true.
Proof.
  revert b. induction sub as [|x sub IH]; intros b H.
  - destruct (b ++ c); reflexivity.
  - destruct b as [|y b]; simpl in H; [discriminate|]. simpl.
    destruct (ascii_dec x y); [apply IH, H | discriminate].
Qed.

Lemma includes_app_mid (b c sub : string) :
  includes b sub = true -> includes (b ++ c) sub = true.
Proof.
  induction b as [|y b IH]; intros H.
  - simpl in H. rewrite orb_false_r in H.
    apply includes_prefix. apply (prefix_app_r sub "" c). exact H.
  - cbn [includes] in H. apply orb_true_iff in H as [H|H].
    + apply includes_prefix, prefix_app_r, H.
    + change (String y b ++ c) with (String y (b ++ c)). cbn [includes].
      rewrite (IH H). apply orb_true_r.
Qed.

(** The filter is idempotent and only ever takes from the payload. *)
Lemma pickAllowed_getProp (payload : JsObj) (k : string) :
  getProp (pickAllowed payload) k
  = if bool_decide (k ∈ allowedFields) && notNullish (getProp payload k)
    then getProp payload k
    else VUndefined.
Proof.
  unfold getProp at 1. rewrite pickAllowed_lookup.
  destruct (bool_decide (k ∈ allowedFields) && notNullish (getProp payload k));
    reflexivity.
Qed.

(** X10: filtering twice is filtering once, and every field the filter
    keeps is a field of the payload with the payload's value. *)
Theorem pickAllowed_idempotent_submap (payload : JsObj) :
  pickAllowed (pickAllowed payload) = pickAllowed payload
  /\ pickAllowed payload ⊆ payload.
Proof.
  split.
  - apply map_eq. intros k. rewrite !pickAllowed_lookup, pickAllowed_getProp.
    destruct (bool_decide (k ∈ allowedFields)); [|reflexivity]. simpl.
    destruct (notNullish (getProp payload k)) eqn:Hn; [|reflexivity].
    rewrite Hn. reflexivity.
  - apply map_subseteq_spec. intros k x H.
    apply pickAllowed_Some in H as (_ & H & _). exact H.
Qed.

Section WriteFacts.

Context {World : Type}.
Variable Date_now : World -> Z.
Variable http_post :
  TradovateAuth -> string -> JsObj -> World ->
  Outcome UpdateUserAutoLiqResponse * World.

Local Abbreviation setAutoLiqSettings := (setAutoLiqSettings http_post).
Local Abbreviation postRiskHandler := (postRiskHandler Date_now http_post).
Local Abbreviation updateAnswer := (updateAnswer http_post).

(** Every way the handler ends: the written record with status 200, or a
    failure envelope with the cache as it was. *)
Lemma postRiskHandler_cases auth accountId payload (s : @State World) :
  (exists r, fst (postRiskHandler auth accountId payload s)
             = Returned (ok (RiskSetOk r)))
  \/ (exists code text tag,
        fst (postRiskHandler auth accountId payload s)
        = Returned (mkResponse code (Failure text tag))
        /\ (code = 400 \/ code = 401 \/ code = 403 \/ code = 500)
        /\ cache (snd (postRiskHandler auth accountId payload s)) = cache s).
Proof.
  unfold Gateway.postRiskHandler, try_catch, bind.
  destruct (size (pickAllowed payload) =? 0)%nat.
  { right. do 3 eexists. split; [reflexivity|]. split; [auto | reflexivity]. }
  rewrite setAutoLiqSettings_run. cbv zeta.
  assert (Hcatch : forall (message : string) (s1 : @State World),
    cache s1 = cache s ->
    exists code text tag,
      fst ((if includes message "401" || includes message "Access is denied"
            then ret tokenExpired
            else if includes message "Unsupported parameters"
            then ret (mkResponse 400 (Failure message (Some "UNSUPPORTED_PARAMS")))
            else if includes message "Should be account owner"
            then ret (mkResponse 403
                        (Failure "Insufficient permissions. You are not the account owner."
                           (Some "NOT_OWNER")))
            else ret (mkResponse 500 (Failure message None))) s1)
      = Returned (mkResponse code (Failure text tag))
      /\ (code = 400 \/ code = 401 \/ code = 403 \/ code = 500)
      /\ cache (snd ((if includes message "401" || includes message "Access is denied"
            then ret tokenExpired
            else if includes message "Unsupported parameters"
            then ret (mkResponse 400 (Failure message (Some "UNSUPPORTED_PARAMS")))
            else if includes message "Should be account owner"
            then ret (mkResponse 403
                        (Failure "Insufficient permissions. You are not the account owner."
                           (Some "NOT_OWNER")))
            else ret (mkResponse 500 (Failure message None))) s1)) = cache s).
  { intros message s1 Hs1.
    destruct (includes message "401" || includes message "Access is denied");
      [do 3 eexists; split; [reflexivity|]; split; [auto | exact Hs1]|].
    destruct (includes message "Unsupported parameters");
      [do 3 eexists; split; [reflexivity|]; split; [auto | exact Hs1]|].
    destruct (includes message "Should be account owner");
      do 3 eexists; (split; [reflexivity|]); (split; [auto | exact Hs1]). }
  destruct (fst (updateAnswer _ _ _ _)) as [result|err].
  - destruct (truthyText (errorText result)).
    + right. apply Hcatch. reflexivity.
    + destruct (nullish _ _) as [autoLiq|].
      * left. eexists. reflexivity.
      * right. apply Hcatch. reflexivity.
  - right. apply Hcatch. reflexivity.
Qed.

(** X11: a write that does not answer 200 leaves the cache exactly as it
    was: validation failures, downstream failures and refused updates
    neither drop nor replace the cached record. *)
Theorem failed_write_keeps_cache auth accountId payload (s : @State World) :
  forall resp,
    fst (postRiskHandler auth accountId payload s) = Returned resp ->
    statusCode resp <> 200 ->
    cache (snd (postRiskHandler auth accountId payload s)) = cache s.
Proof.
  intros resp Hr Hne.
  destruct (postRiskHandler_cases auth accountId payload s)
    as [(r & H)|(code & text & tag & H & _ & Hc)].
  - rewrite H in Hr. injection Hr as <-. simpl in Hne. contradiction.
  - exact Hc.
Qed.

(** X12: the POST handler always answers, never throws, and its status is
    one of 200, 400, 401, 403, 500; the body carries the written record
    exactly when the status is 200. *)
Theorem postRiskHandler_status auth accountId (input : JsObj) (s : @State World) :
  exists resp,
    fst (postRiskHandler auth accountId input s) = Returned resp
    /\ (statusCode resp = 200 \/ statusCode resp = 400 \/ statusCode resp = 401
        \/ statusCode resp = 403 \/ statusCode resp = 500)
    /\ (statusCode resp = 200 <-> exists r, payload resp = RiskSetOk r).
Proof.
  destruct (postRiskHandler_cases auth accountId input s)
    as [(r & H)|(code & text & tag & H & Hcode & _)]; rewrite H.
  - eexists. split; [reflexivity|]. split; [left; reflexivity|].
    split; [eauto | reflexivity].
  - eexists. split; [reflexivity|]. split.
    + simpl. tauto.
    + simpl. split.
      * intros ->. destruct Hcode as [?|[?|[?|?]]]; discriminate.
      * intros [r Hr]. discriminate.
Qed.

Lemma postRiskHandler_forwarded auth accountId payload (s : @State World) :
  pickAllowed payload <> ∅ ->
  postRiskHandler auth accountId payload s
  = try_catch
      (bind (setAutoLiqSettings auth accountId (pickAllowed payload))
         (fun result =>
            bind (invalidateCachedRisk accountId)
              (fun _ => bind (setCachedRisk Date_now accountId result)
                          (fun _ => ret (ok (RiskSetOk result))))))
      (fun error =>
         let message := messageOr "Unknown error" error in
         if includes message "401" || includes message "Access is denied"
         then ret tokenExpired
         else if includes message "Unsupported parameters"
         then ret (mkResponse 400 (Failure message (Some "UNSUPPORTED_PARAMS")))
         else if includes message "Should be account owner"
         then ret (mkResponse 403
                     (Failure "Insufficient permissions. You are not the account owner."
                        (Some "NOT_OWNER")))
         else ret (mkResponse 500 (Failure message None))) s.
Proof.
  intros Hne. unfold Gateway.postRiskHandler, try_catch.
  destruct (Nat.eqb_spec (size (pickAllowed payload)) 0) as [Hz|_];
    [|reflexivity].
  apply map_size_empty_iff in Hz. contradiction.
Qed.

(** X13: an account id whose decimal text contains "401" turns every
    failure message that quotes it into an expired-token answer: a
    refused update (error text in the answer) and an answer without an
    entity are both reported as 401 [TOKEN_EXPIRED]. *)
Theorem account_id_text_401_reads_as_expired
    auth accountId payload (s : @State World) (result : UpdateUserAutoLiqResponse) :
  includes (String_of accountId) "401" = true ->
  pickAllowed payload <> ∅ ->
  fst (updateAnswer auth accountId (pickAllowed payload) (world s)) = Returned result ->
  truthyText (errorText result) = true
  \/ nullish (userAccountAutoLiq result) (permissionedAccountAutoLiq result) = None ->
  fst (postRiskHandler auth accountId payload s) = Returned tokenExpired.
Proof.
  intros Hid Hne Hr Hfail.
  rewrite postRiskHandler_forwarded by exact Hne.
  unfold try_catch, bind. rewrite setAutoLiqSettings_run. cbv zeta. rewrite Hr.
  destruct (truthyText (errorText result)) eqn:Ht.
  - cbn [messageOr].
    rewrite (includes_app_r "Failed to set auto-liq for account "
               (String_of accountId ++ ": " ++ default "" (errorText result)) "401")
      by (apply includes_app_mid, Hid).
    reflexivity.
  - destruct Hfail as [Hfail|Hfail]; [discriminate|]. rewrite Hfail.
    cbn [messageOr].
    rewrite (includes_app_r "No auto-liq entity returned for account "
               (String_of accountId) "401") by exact Hid.
    reflexivity.
Qed.

(** X14: an update refused with an error text containing "Should be
    account owner" is answered 403 [NOT_OWNER], provided the failure
    message (which quotes the account id and the text) contains none of
    the phrases tested before it; the cache is left as it was. *)
Theorem refused_update_is_not_owner
    auth accountId payload (s : @State World)
    (result : UpdateUserAutoLiqResponse) (text : string) :
  let message := "Failed to set auto-liq for account " ++ String_of accountId
                 ++ ": " ++ text in
  pickAllowed payload <> ∅ ->
  fst (updateAnswer auth accountId (pickAllowed payload) (world s)) = Returned result ->
  errorText result = Some text ->
  includes text "Should be account owner" = true ->
  includes message "401" = false ->
  includes message "Access is denied" = false ->
  includes message "Unsupported parameters" = false ->
  fst (postRiskHandler auth accountId payload s)
  = Returned (mkResponse 403
                (Failure "Insufficient permissions. You are not the account owner."
                   (Some "NOT_OWNER")))
  /\ cache (snd (postRiskHandler auth accountId payload s)) = cache s.
Proof.
  intros message Hne Hr Ht Howner H401 Hden Hunsup.
  assert (Htruthy : truthyText (errorText result) = true).
  { rewrite Ht. destruct text; [discriminate | reflexivity]. }
  assert (Hmsg : includes message "Should be account owner" = true).
  { subst message. do 3 apply includes_app_r. exact Howner. }
  rewrite postRiskHandler_forwarded by exact Hne.
  unfold try_catch, bind. rewrite setAutoLiqSettings_run. cbv zeta.
  rewrite Hr, Htruthy, Ht. cbn [messageOr default from_option id].
  fold message. rewrite H401, Hden, Hunsup, Hmsg. split; reflexivity.
Qed.

End WriteFacts.

(** ** Further properties of the auth middlewares *)

Lemma length_app_string (a b : string) :
  String.length (a ++ b) = (String.length a + String.length b)%nat.
Proof. induction a as [|c a IH]; simpl; [reflexivity | rewrite IH; reflexivity]. Qed.

Lemma substring_skip (a b : string) (m : nat) :
  String.substring (String.length a) m (a ++ b) = String.substring 0 m b.
Proof. induction a as [|c a IH]; simpl; [reflexivity | exact IH]. Qed.

Lemma endsWith_app (a p : string) : endsWith (a ++ p) p = true.
Proof.
  unfold endsWith. rewrite length_app_string.
  replace (String.length a + String.length p - String.length p)%nat
    with (String.length a) by lia.
  rewrite substring_skip, substring_all, String.eqb_refl, andb_true_r.
  apply Nat.leb_le. lia.
Qed.

Section AuthFacts.

Import Resolver.

Variable verifyAuthToken : string -> Outcome string.
Variable getConnectionToken : string -> string -> Outcome Connection.
Variable missing : string.

Local Abbreviation authenticate :=
  (authenticate verifyAuthToken getConnectionToken missing).

(** The connection reference the middleware settles on. *)
Local Abbreviation chosenRef req :=
  (nullish (payload_connectionRef req)
     (nullish (query_connectionRef req) (x_connection_ref req))).

(** The base URL handed to the client: [/v1] appended unless present. *)
Local Abbreviation versioned u :=
  (if endsWith u%string "/v1" then u%string else (u ++ "/v1")%string).

Lemma versioned_ends (u : string) : endsWith (versioned u) "/v1" = true.
Proof.
  destruct (endsWith u "/v1") eqn:H; [exact H | apply endsWith_app].
Qed.

(** A well-formed request whose lookup succeeds is let through with a
    client for the stored token at the versioned URL. *)
Lemma authenticate_lookup_returns
    (req : Request) (idToken userId ref u : string) (conn : Connection) :
  authorization req = Some ("Bearer " ++ idToken) ->
  idToken <> "" ->
  verifyAuthToken idToken = Returned userId ->
  chosenRef req = Some ref ->
  ref <> "" ->
  getConnectionToken userId ref = Returned conn ->
  conn_url conn = Some u ->
  authenticate req
  = Authenticated userId ref (fromToken (versioned u) (conn_token conn)).
Proof.
  intros Ha Hid Hv Hr Hne Hg Hu. unfold Resolver.authenticate.
  rewrite Ha. cbn [default from_option id truthyText].
  change (String.eqb ("Bearer " ++ idToken) "") with false.
  unfold startsWith. rewrite prefix_app. cbn [negb orb].
  rewrite slice_bearer.
  destruct (String.eqb_spec idToken ""); [contradiction|].
  unfold resolveClient. rewrite Hv, Hr. cbn [truthyText default from_option id].
  destruct (String.eqb_spec ref ""); [contradiction|]. cbn [negb].
  rewrite Hg, Hu. reflexivity.
Qed.

(** What an authenticated outcome tells about the run that gave it. *)
Lemma authenticated_inv (req : Request) (userId ref : string) (c : TradovateAuth) :
  authenticate req = Authenticated userId ref c ->
  exists conn u,
    getConnectionToken userId ref = Returned conn
    /\ conn_url conn = Some u
    /\ c = fromToken (versioned u) (conn_token conn)
    /\ ref <> ""
    /\ chosenRef req = Some ref.
Proof.
  unfold Resolver.authenticate.
  destruct (negb _ || negb _); [discriminate|].
  destruct (String.eqb _ ""); [discriminate|].
  assert (Hfail : forall err, authFailure err <> Authenticated userId ref c).
  { intros err. unfold authFailure.
    destruct (_ || _); [discriminate|]. destruct (includes _ _); discriminate. }
  unfold resolveClient.
  destruct (verifyAuthToken _) as [uid|err]; [|intros H; destruct (Hfail _ H)].
  destruct (chosenRef req) as [r|] eqn:Hr; cbn [truthyText negb];
    [|discriminate].
  destruct (String.eqb_spec r "") as [->|Hne]; cbn [negb]; [discriminate|].
  cbn [default from_option id].
  destruct (getConnectionToken uid r) as [conn|err] eqn:Hg;
    [|intros H; destruct (Hfail _ H)].
  destruct (conn_url conn) as [u|] eqn:Hu; [|intros H; destruct (Hfail _ H)].
  intros [= <- <- <-]. exists conn, u. auto.
Qed.

(** X15: without a header of the form [Bearer <token>] the request is
    answered 401 before anything else is looked at: a missing header, an
    empty one and one that does not start with "Bearer " get "Missing
    Authorization ...", and "Bearer " alone gets "Empty auth token",
    whatever the verifier and the credential store would say. *)
Theorem authenticate_requires_bearer (req : Request) :
  (match authorization req with
   | None => True
   | Some h => startsWith h "Bearer " = false
   end ->
   authenticate req
   = Rejected 401 "Missing Authorization: Bearer <firebase_id_token>")
  /\ (authorization req = Some "Bearer " ->
      authenticate req = Rejected 401 "Empty auth token").
Proof.
  split.
  - unfold Resolver.authenticate.
    destruct (authorization req) as [h|]; [|reflexivity].
    intros H. cbn [default from_option id]. rewrite H.
    rewrite orb_true_r. reflexivity.
  - intros H. unfold Resolver.authenticate. rewrite H. reflexivity.
Qed.

(** The connection reference is taken from the first place, else the
    second, else the header, and only [null]/[undefined] fall through: a
    first-place reference that is the empty string hides the other two,
    and the request is answered 400 without a credential lookup, as it is
    when no place carries a non-empty reference. *)
Lemma authenticate_missing_connectionRef
    (req : Request) (idToken userId : string) :
  authorization req = Some ("Bearer " ++ idToken) ->
  idToken <> "" ->
  verifyAuthToken idToken = Returned userId ->
  payload_connectionRef req = Some ""
  \/ (payload_connectionRef req = None /\ query_connectionRef req = Some "")
  \/ (payload_connectionRef req = None /\ query_connectionRef req = None
      /\ truthyText (x_connection_ref req) = false) ->
  authenticate req = Rejected 400 missing.
Proof.
  intros Ha Hid Hv Href. unfold Resolver.authenticate.
  rewrite Ha. cbn [default from_option id truthyText].
  change (String.eqb ("Bearer " ++ idToken) "") with false.
  unfold startsWith. rewrite prefix_app. cbn [negb orb].
  rewrite slice_bearer.
  destruct (String.eqb_spec idToken ""); [contradiction|].
  unfold resolveClient. rewrite Hv.
  destruct Href as [Hp|[(Hp & Hq)|(Hp & Hq & Hh)]].
  - rewrite Hp. reflexivity.
  - rewrite Hp, Hq. reflexivity.
  - rewrite Hp, Hq. cbn [nullish].
    destruct (x_connection_ref req); cbn [nullish] in *; rewrite Hh; reflexivity.
Qed.

(** X17: the middleware answers a request itself only with 400, 401 or
    404. *)
Theorem authenticate_rejection_codes (req : Request) (code : Z) (text : string) :
  authenticate req = Rejected code text ->
  code = 400 \/ code = 401 \/ code = 404.
Proof.
  unfold Resolver.authenticate.
  destruct (negb _ || negb _); [intros [= <- _]; auto|].
  destruct (String.eqb _ ""); [intros [= <- _]; auto|].
  assert (Hfail : forall err, authFailure err = Rejected code text ->
                              code = 400 \/ code = 401 \/ code = 404).
  { intros err. unfold authFailure.
    destruct (_ || _); [intros [= <- _]; auto|].
    destruct (includes _ _); intros [= <- _]; auto. }
  unfold resolveClient.
  destruct (verifyAuthToken _) as [uid|err]; [|apply Hfail].
  destruct (negb (truthyText _)); [intros [= <- _]; auto|].
  destruct (getConnectionToken _ _) as [conn|err]; [|apply Hfail].
  destruct (conn_url conn); [discriminate | apply Hfail].
Qed.

(** Everything an authenticated outcome tells about the run that gave
    it: the header, the verifier's answer, the chosen reference, the
    lookup and the client. *)
Lemma authenticated_inv_full (req : Request) (userId ref : string) (c : TradovateAuth) :
  authenticate req = Authenticated userId ref c ->
  exists h conn u,
    authorization req = Some h
    /\ startsWith h "Bearer " = true
    /\ verifyAuthToken (slice h 7) = Returned userId
    /\ chosenRef req = Some ref
    /\ ref <> ""
    /\ getConnectionToken userId ref = Returned conn
    /\ conn_url conn = Some u
    /\ c = fromToken (versioned u) (conn_token conn).
Proof.
  unfold Resolver.authenticate.
  destruct (authorization req) as [h|] eqn:Ha; cbn [default from_option id];
    [|discriminate].
  destruct (startsWith h "Bearer ") eqn:Hs;
    [|rewrite orb_true_r; discriminate].
  destruct (negb (truthyText (Some h))); cbn [negb orb]; [discriminate|].
  destruct (String.eqb (slice h 7) ""); [discriminate|].
  assert (Hfail : forall err, authFailure err <> Authenticated userId ref c).
  { intros err. unfold authFailure.
    destruct (_ || _); [discriminate|]. destruct (includes _ _); discriminate. }
  unfold resolveClient.
  destruct (verifyAuthToken (slice h 7)) as [uid|err] eqn:Hv;
    [|intros H; destruct (Hfail _ H)].
  destruct (chosenRef req) as [r|] eqn:Hr; cbn [truthyText negb];
    [|discriminate].
  destruct (String.eqb_spec r "") as [->|Hne]; cbn [negb]; [discriminate|].
  cbn [default from_option id].
  destruct (getConnectionToken uid r) as [conn|err] eqn:Hg;
    [|intros H; destruct (Hfail _ H)].
  destruct (conn_url conn) as [u|] eqn:Hu; [|intros H; destruct (Hfail _ H)].
  intros [= <- <- <-]. exists h, conn, u. auto 10.
Qed.

End AuthFacts.

(** ** The two middlewares *)

Lemma string_app_assoc (a b c : string) : (a ++ b) ++ c = a ++ (b ++ c).
Proof.
  induction a as [|x a IH]; [reflexivity|].
  change (String x ((a ++ b) ++ c) = String x (a ++ (b ++ c))).
  rewrite IH. reflexivity.
Qed.

Section StoreFacts.

Import Resolver.

Variable verifyAuthToken : string -> Outcome string.

Lemma firebase_returned (rtdb : string -> option TokenRow)
    (userId ref : string) (conn : Connection) :
  getConnectionToken_firebase rtdb userId ref = Returned conn ->
  exists row,
    rtdb ("renewAccessTokens/" ++ userId ++ "/" ++ ref) = Some row
    /\ token row = Some (conn_token conn)
    /\ conn_token conn <> ""
    /\ conn_url conn = url row.
Proof.
  unfold getConnectionToken_firebase.
  destruct (rtdb _) as [row|]; [|discriminate].
  destruct (token row) as [tok|] eqn:Ht; cbn [truthyText negb]; [|discriminate].
  destruct (String.eqb_spec tok "") as [->|Hne]; cbn [negb]; [discriminate|].
  intros [= <-]. exists row. cbn. auto.
Qed.

Lemma supabase_returned (tbl : string -> string -> SingleResult)
    (userId ref : string) (conn : Connection) :
  getConnectionToken_supabase tbl userId ref = Returned conn ->
  exists row,
    tbl userId ref = mkSingle (Some row) None
    /\ token row = Some (conn_token conn)
    /\ conn_token conn <> ""
    /\ conn_url conn = Some (default "https://demo.tradovateapi.com" (url row)).
Proof.
  unfold getConnectionToken_supabase.
  destruct (tbl userId ref) as [d e]. cbn [data error].
  destruct e as [m|]; [discriminate|].
  destruct d as [row|]; [|discriminate].
  destruct (token row) as [tok|] eqn:Ht; cbn [truthyText negb]; [|discriminate].
  destruct (String.eqb_spec tok "") as [->|Hne]; cbn [negb]; [discriminate|].
  intros [= <-]. exists row. cbn. auto.
Qed.

(** X18: credential scoping.  When either middleware lets a request
    through, the user is the one the verifier returned for the bearer
    token of the request, the reference is the one the request chose
    (query, else header, for the Hapi scheme, which runs before the
    payload is read; body, else query, else header, for Express), the
    client carries exactly the token stored for that user and reference,
    that token is non-empty, and the client's base URL is the stored URL
    (for Supabase the demo host when none is stored) with "/v1" appended
    unless it already ends so. *)
Theorem authenticated_client_is_the_stored_credential
    (tbl : string -> string -> SingleResult) (rtdb : string -> option TokenRow)
    (req : Request) (userId ref : string) (c : TradovateAuth) :
  (payload_connectionRef req = None ->
   authPlugin verifyAuthToken tbl req = Authenticated userId ref c ->
   (exists h, authorization req = Some h
              /\ startsWith h "Bearer " = true
              /\ verifyAuthToken (slice h 7) = Returned userId)
   /\ nullish (query_connectionRef req) (x_connection_ref req) = Some ref
   /\ ref <> ""
   /\ endsWith (baseUrl c) "/v1" = true
   /\ accessToken c <> ""
   /\ exists row,
        tbl userId ref = mkSingle (Some row) None
        /\ token row = Some (accessToken c)
        /\ let u := default "https://demo.tradovateapi.com" (url row) in
           baseUrl c = if endsWith u "/v1" then u else u ++ "/v1")
  /\ (firebaseAuth verifyAuthToken rtdb req = Authenticated userId ref c ->
      (exists h, authorization req = Some h
                 /\ startsWith h "Bearer " = true
                 /\ verifyAuthToken (slice h 7) = Returned userId)
      /\ nullish (payload_connectionRef req)
           (nullish (query_connectionRef req) (x_connection_ref req)) = Some ref
      /\ ref <> ""
      /\ endsWith (baseUrl c) "/v1" = true
      /\ accessToken c <> ""
      /\ exists row u,
           rtdb ("renewAccessTokens/" ++ userId ++ "/" ++ ref) = Some row
           /\ token row = Some (accessToken c)
           /\ url row = Some u
           /\ baseUrl c = if endsWith u "/v1" then u else u ++ "/v1").
Proof.
  split.
  - intros Hp H. apply authenticated_inv_full in H
      as (h & conn & u & Ha & Hs & Hv & Hr & Hne & Hg & Hu & ->).
    cbn [baseUrl accessToken].
    apply supabase_returned in Hg as (row & Hrow & Ht & Htok & Hurl).
    rewrite Hp in Hr. cbn [nullish] in Hr.
    split; [eauto|]. split; [exact Hr|]. split; [exact Hne|].
    split; [apply versioned_ends|]. split; [exact Htok|].
    exists row. split; [exact Hrow|]. split; [exact Ht|].
    rewrite Hu in Hurl. injection Hurl as ->. reflexivity.
  - intros H. apply authenticated_inv_full in H
      as (h & conn & u & Ha & Hs & Hv & Hr & Hne & Hg & Hu & ->).
    cbn [baseUrl accessToken].
    apply firebase_returned in Hg as (row & Hrow & Ht & Htok & Hurl).
    split; [eauto|]. split; [exact Hr|]. split; [exact Hne|].
    split; [apply versioned_ends|]. split; [exact Htok|].
    exists row, u. split; [exact Hrow|]. split; [exact Ht|].
    split; [congruence | reflexivity].
Qed.

(** X19: a stored record with a token but no URL.  The Hapi scheme
    (Supabase) falls back to the demo host and lets the request through
    with a client for "https://demo.tradovateapi.com/v1"; the Express
    middleware (Firebase) fails on the missing URL and answers 401. *)
Theorem stored_record_without_url
    (tbl : string -> string -> SingleResult) (rtdb : string -> option TokenRow)
    (req : Request) (idToken userId ref tok : string) :
  authorization req = Some ("Bearer " ++ idToken) ->
  idToken <> "" ->
  verifyAuthToken idToken = Returned userId ->
  nullish (payload_connectionRef req)
    (nullish (query_connectionRef req) (x_connection_ref req)) = Some ref ->
  ref <> "" ->
  tok <> "" ->
  (tbl userId ref = mkSingle (Some (mkRow (Some tok) None)) None ->
   authPlugin verifyAuthToken tbl req
   = Authenticated userId ref (fromToken "https://demo.tradovateapi.com/v1" tok))
  /\ (rtdb ("renewAccessTokens/" ++ userId ++ "/" ++ ref) = Some (mkRow (Some tok) None) ->
      exists text, firebaseAuth verifyAuthToken rtdb req = Rejected 401 text).
Proof.
  intros Ha Hid Hv Hr Hne Htok. split; intros Hrow.
  - unfold authPlugin.
    rewrite (authenticate_lookup_returns _ _ _ req idToken userId ref
               "https://demo.tradovateapi.com"
               (mkConnection tok (Some "https://demo.tradovateapi.com")));
      try assumption; try reflexivity.
    unfold getConnectionToken_supabase. rewrite Hrow. cbn.
    destruct (String.eqb_spec tok ""); [contradiction | reflexivity].
  - unfold firebaseAuth, authenticate.
    rewrite Ha. cbn [default from_option id truthyText].
    change (String.eqb ("Bearer " ++ idToken) "") with false.
    unfold startsWith. rewrite prefix_app. cbn [negb orb].
    rewrite slice_bearer.
    destruct (String.eqb_spec idToken ""); [contradiction|].
    unfold resolveClient. rewrite Hv, Hr. cbn [truthyText default from_option id].
    destruct (String.eqb_spec ref ""); [contradiction|]. cbn [negb].
    unfold getConnectionToken_firebase. rewrite Hrow. cbn.
    destruct (String.eqb_spec tok ""); [contradiction|]. cbn.
    eexists. reflexivity.
Qed.

(** X20: a connection that is not in the store is answered 404 with the
    not-found text, by the Express middleware (no record, or a record
    without a token) and by the Hapi scheme (no row; the store's error
    text is quoted after the not-found text), as long as that text
    contains neither identity-failure phrase. *)
Theorem connection_not_found_is_404
    (tbl : string -> string -> SingleResult) (rtdb : string -> option TokenRow)
    (req : Request) (idToken userId ref : string) :
  let base := "No Tradovate token found" ++
              (" for user " ++ userId ++ ", connection " ++ ref) in
  authorization req = Some ("Bearer " ++ idToken) ->
  idToken <> "" ->
  verifyAuthToken idToken = Returned userId ->
  nullish (payload_connectionRef req)
    (nullish (query_connectionRef req) (x_connection_ref req)) = Some ref ->
  ref <> "" ->
  (match rtdb ("renewAccessTokens/" ++ userId ++ "/" ++ ref) with
   | None => True
   | Some row => truthyText (token row) = false
   end ->
   includes base "Firebase ID token has expired" = false ->
   includes base "Decoding Firebase" = false ->
   firebaseAuth verifyAuthToken rtdb req = Rejected 404 base)
  /\ (forall reason,
        tbl userId ref = mkSingle None (Some reason) ->
        includes (base ++ ": " ++ reason) "Firebase ID token has expired" = false ->
        includes (base ++ ": " ++ reason) "Decoding Firebase" = false ->
        authPlugin verifyAuthToken tbl req = Rejected 404 (base ++ ": " ++ reason)).
Proof.
  intros base Ha Hid Hv Hr Hne. split.
  - intros Hrow H1 H2.
    apply (firebaseAuth_missing_is_404 verifyAuthToken rtdb req idToken userId ref);
      assumption.
  - intros reason Htbl H1 H2. unfold authPlugin.
    rewrite (authenticate_lookup_throws verifyAuthToken _ _ req idToken userId ref
               (ThrownError (base ++ ": " ++ reason))); try assumption.
    + assert (Hassoc : base ++ ": " ++ reason
                       = "No Tradovate token found" ++
                         ((" for user " ++ userId ++ ", connection " ++ ref)
                          ++ ": " ++ reason)) by reflexivity.
      rewrite Hassoc in *. apply authFailure_not_found; assumption.
    + unfold getConnectionToken_supabase. rewrite Htbl. cbn [error data].
      apply f_equal, f_equal. subst base.
      change ("No Tradovate token found" ++
              " for user " ++ userId ++ ", connection " ++ ref)
        with ("No Tradovate token found for user " ++
              (userId ++ ", connection " ++ ref)).
      rewrite !string_app_assoc. reflexivity.
Qed.

(** X21: the status is chosen by searching the failure text, which
    quotes the connection reference: for a reference containing "Decoding
    Firebase", a connection that is not in the store is answered 401
    "Invalid or expired auth token" instead of 404. *)
Theorem connection_reference_can_mask_not_found
    (rtdb : string -> option TokenRow)
    (req : Request) (idToken userId ref : string) :
  authorization req = Some ("Bearer " ++ idToken) ->
  idToken <> "" ->
  verifyAuthToken idToken = Returned userId ->
  nullish (payload_connectionRef req)
    (nullish (query_connectionRef req) (x_connection_ref req)) = Some ref ->
  ref <> "" ->
  rtdb ("renewAccessTokens/" ++ userId ++ "/" ++ ref) = None ->
  includes ref "Decoding Firebase" = true ->
  firebaseAuth verifyAuthToken rtdb req
  = Rejected 401 "Invalid or expired auth token".
Proof.
  intros Ha Hid Hv Hr Hne Hrow Hin. unfold firebaseAuth.
  rewrite (authenticate_lookup_throws verifyAuthToken _ _ req idToken userId ref
             (ThrownError ("No Tradovate token found for user " ++ userId
                           ++ ", connection " ++ ref))); try assumption.
  - unfold authFailure. cbn [messageOr].
    rewrite (includes_app_r "No Tradovate token found for user "
               (userId ++ ", connection " ++ ref) "Decoding Firebase")
      by (do 2 apply includes_app_r; exact Hin).
    rewrite orb_true_r. reflexivity.
  - apply firebase_missing_or_empty. rewrite Hrow. exact I.
Qed.

(** X16: in the Express middleware the connection reference is taken
    from the body, else the query, else the header, and only
    [null]/[undefined] fall through: a body reference that is the empty
    string hides the other two (and an empty query reference hides the
    header), and the request is answered 400 "Missing connectionRef ..."
    whatever the credential store holds, as it is when no place carries a
    non-empty reference. *)
Theorem express_missing_connectionRef
    (rtdb : string -> option TokenRow) (req : Request) (idToken userId : string) :
  authorization req = Some ("Bearer " ++ idToken) ->
  idToken <> "" ->
  verifyAuthToken idToken = Returned userId ->
  payload_connectionRef req = Some ""
  \/ (payload_connectionRef req = None /\ query_connectionRef req = Some "")
  \/ (payload_connectionRef req = None /\ query_connectionRef req = None
      /\ truthyText (x_connection_ref req) = false) ->
  firebaseAuth verifyAuthToken rtdb req
  = Rejected 400
      "Missing connectionRef (in body, query param, or X-Connection-Ref header)".
Proof.
  intros Ha Hid Hv Href. unfold firebaseAuth.
  apply (authenticate_missing_connectionRef verifyAuthToken _ _ req idToken userId);
    assumption.
Qed.

End StoreFacts.

(** ** The convenience write *)

Section LimitsFacts.

Context {World : Type}.
Variable http_post :
  TradovateAuth -> string -> JsObj -> World ->
  Outcome UpdateUserAutoLiqResponse * World.

(** Whatever the answer, [setAutoLiqSettings] issues exactly one call. *)
Lemma setAutoLiqSettings_calls auth accountId settings (s : @State World) :
  calls (snd (setAutoLiqSettings http_post auth accountId settings s))
  = (calls s ++ [updateCall auth accountId settings])%list.
Proof.
  rewrite setAutoLiqSettings_run. cbv zeta.
  destruct (fst (updateAnswer http_post _ _ _ _)) as [result|err]; [|reflexivity].
  destruct (truthyText (errorText result)); [reflexivity|].
  destruct (nullish _ _); reflexivity.
Qed.

End LimitsFacts.

(** ** Closed instances of the further properties *)

Lemma cached_risk_round_trip_witness :
  getCachedRisk Stub.now 42
    (mkState 3600000 (cache (snd (setCachedRisk Stub.now 42 Stub.ownerRecord Stub.fresh))) [])
  = (Returned (Some Stub.ownerRecord),
     mkState 3600000 (cache (snd (setCachedRisk Stub.now 42 Stub.ownerRecord Stub.fresh))) []).
Proof.
  apply (cached_risk_round_trip Stub.now 42 Stub.ownerRecord Stub.fresh 3600000).
  unfold Stub.now. simpl. lia.
Defined.

Lemma cached_risk_expires_witness :
  fst (getCachedRisk Stub.now 42
         (mkState 3600001
            (cache (snd (setCachedRisk Stub.now 42 Stub.ownerRecord Stub.fresh))) []))
  = Returned None.
Proof.
  apply (cached_risk_expires Stub.now 42 Stub.ownerRecord Stub.fresh 3600001).
  unfold Stub.now. simpl. lia.
Defined.

Lemma cached_risk_accounts_independent_witness :
  cache (snd (invalidateCachedRisk 7 Stub.warm)) !! riskKey 42
  = cache Stub.warm !! riskKey 42.
Proof.
  apply (cached_risk_accounts_independent Stub.now 7 42 Stub.ownerRecord Stub.warm).
  discriminate.
Defined.

Lemma read_through_populates_cache_witness :
  let first :=
    getRiskHandler Stub.now
      (Stub.get (Returned [Stub.ownerRecord]) (Threw Stub.unauthorized))
      Stub.auth 42 Stub.fresh in
  fst first = Returned (ok (RiskGetOk (Some Stub.ownerRecord) false))
  /\ getRiskHandler Stub.now (Stub.get (Threw Stub.serverError) (Threw Stub.serverError))
       Stub.auth 42 (snd first)
     = (Returned (ok (RiskGetOk (Some Stub.ownerRecord) true)), snd first).
Proof.
  cbv zeta.
  destruct (read_through_populates_cache Stub.now
              (Stub.get (Returned [Stub.ownerRecord]) (Threw Stub.unauthorized))
              Stub.auth 42 Stub.fresh [Stub.ownerRecord] [] Stub.ownerRecord
              eq_refl eq_refl eq_refl eq_refl) as [H1 H2].
  split; [exact H1|].
  apply (H2 Stub.auth 0). apply Z.leb_le. vm_compute. reflexivity.
Defined.

Lemma no_settings_not_cached_witness :
  let first :=
    getRiskHandler Stub.now
      (Stub.get (Threw Stub.unauthorized) (Threw Stub.unauthorized))
      Stub.auth 42 Stub.fresh in
  fst first = Returned (ok (RiskGetOk None false))
  /\ cache (snd first) !! riskKey 42 = None.
Proof.
  cbv zeta.
  destruct (no_settings_not_cached Stub.now
              (Stub.get (Threw Stub.unauthorized) (Threw Stub.unauthorized))
              Stub.auth 42 Stub.fresh [] [] eq_refl eq_refl eq_refl eq_refl)
    as (H1 & H2 & _).
  split; assumption.
Defined.

Lemma expired_entry_refetched_witness :
  fst (getRiskHandler Stub.now
         (Stub.get (Returned [Stub.permRecord]) (Returned []))
         Stub.auth 42 Samples.stale)
  = Returned (ok (RiskGetOk (Some Stub.permRecord) false)).
Proof.
  destruct (expired_entry_refetched Stub.now
              (Stub.get (Returned [Stub.permRecord]) (Returned []))
              Stub.auth 42 Samples.stale
              (NodeCache.mkEntry Stub.ownerRecord 1000)
              [Stub.permRecord] [] eq_refl eq_refl eq_refl eq_refl) as [H _].
  rewrite H. vm_compute. reflexivity.
Defined.

Lemma getRiskHandler_calls_witness :
  calls (snd (getRiskHandler Stub.now
                (Stub.get (Threw Stub.serverError) (Returned [Stub.permRecord]))
                Stub.auth 42 Stub.fresh))
  = [CallGet Stub.auth "/userAccountAutoLiq/deps" (masterid 42)].
Proof.
  destruct (getRiskHandler_calls Stub.now
              (Stub.get (Threw Stub.serverError) (Returned [Stub.permRecord]))
              Stub.auth 42 Stub.fresh) as (_ & H & _).
  apply H; reflexivity.
Defined.

Lemma failed_write_keeps_cache_witness :
  cache (snd (postRiskHandler Stub.now (Stub.post (Returned Stub.refusal))
                Stub.auth 42 Stub.writePayload Stub.warm))
  = cache Stub.warm.
Proof.
  apply (failed_write_keeps_cache Stub.now (Stub.post (Returned Stub.refusal))
           Stub.auth 42 Stub.writePayload Stub.warm
           (mkResponse 403
              (Failure "Insufficient permissions. You are not the account owner."
                 (Some "NOT_OWNER")))).
  - vm_compute. reflexivity.
  - discriminate.
Defined.

Lemma account_id_text_401_reads_as_expired_witness :
  fst (postRiskHandler Stub.now (Stub.post (Returned Stub.refusal))
         Stub.auth 4010 Stub.writePayload Stub.fresh)
  = Returned tokenExpired.
Proof.
  apply (account_id_text_401_reads_as_expired Stub.now
           (Stub.post (Returned Stub.refusal))
           Stub.auth 4010 Stub.writePayload Stub.fresh Stub.refusal).
  - reflexivity.
  - intros He. apply (f_equal (fun m : JsObj => m !! "dailyLossAutoLiq")) in He.
    vm_compute in He. discriminate.
  - reflexivity.
  - left. reflexivity.
Defined.

Lemma refused_update_is_not_owner_witness :
  fst (postRiskHandler Stub.now (Stub.post (Returned Stub.refusal))
         Stub.auth 42 Stub.writePayload Stub.fresh)
  = Returned (mkResponse 403
                (Failure "Insufficient permissions. You are not the account owner."
                   (Some "NOT_OWNER"))).
Proof.
  apply (refused_update_is_not_owner Stub.now (Stub.post (Returned Stub.refusal))
           Stub.auth 42 Stub.writePayload Stub.fresh Stub.refusal
           "Should be account owner").
  - intros He. apply (f_equal (fun m : JsObj => m !! "dailyLossAutoLiq")) in He.
    vm_compute in He. discriminate.
  - reflexivity.
  - reflexivity.
  - reflexivity.
  - reflexivity.
  - reflexivity.
  - reflexivity.
Defined.

Lemma authenticate_requires_bearer_witness :
  Resolver.authPlugin Stub.verify Stub.table Samples.anonymous
  = Resolver.Rejected 401 "Missing Authorization: Bearer <firebase_id_token>".
Proof.
  apply (authenticate_requires_bearer Stub.verify
           (Resolver.getConnectionToken_supabase Stub.table)
           "Missing connectionRef (in payload, query param, or X-Connection-Ref header)"
           Samples.anonymous).
  exact I.
Defined.

Lemma authenticate_rejection_codes_witness :
  (404 = 400 \/ 404 = 401 \/ 404 = 404)%Z.
Proof.
  apply (authenticate_rejection_codes Stub.verify
           (Resolver.getConnectionToken_firebase Samples.emptyRtdb)
           "Missing connectionRef (in body, query param, or X-Connection-Ref header)"
           (Samples.viaQuery "TS-1") 404
           "No Tradovate token found for user u1, connection TS-1").
  reflexivity.
Defined.

Lemma stored_record_without_url_witness :
  Resolver.authPlugin Stub.verify (Samples.tableOf Samples.noUrlRow)
    (Samples.viaQuery "TS-1")
  = Resolver.Authenticated "u1" "TS-1"
      (fromToken "https://demo.tradovateapi.com/v1" "tdv-token")
  /\ exists text,
       Resolver.firebaseAuth Stub.verify (Samples.rtdbOf Samples.noUrlRow)
         (Samples.viaQuery "TS-1")
       = Resolver.Rejected 401 text.
Proof.
  destruct (stored_record_without_url Stub.verify
              (Samples.tableOf Samples.noUrlRow) (Samples.rtdbOf Samples.noUrlRow)
              (Samples.viaQuery "TS-1") "good-token" "u1" "TS-1" "tdv-token")
    as [H1 H2]; try reflexivity; try discriminate.
  split; [apply H1 | apply H2]; reflexivity.
Defined.

Lemma connection_not_found_is_404_witness :
  Resolver.firebaseAuth Stub.verify Samples.emptyRtdb (Samples.viaQuery "TS-1")
  = Resolver.Rejected 404 "No Tradovate token found for user u1, connection TS-1"
  /\ Resolver.authPlugin Stub.verify Samples.emptyTable (Samples.viaQuery "TS-1")
     = Resolver.Rejected 404
         "No Tradovate token found for user u1, connection TS-1: JSON object requested, multiple (or no) rows returned".
Proof.
  destruct (connection_not_found_is_404 Stub.verify Samples.emptyTable
              Samples.emptyRtdb (Samples.viaQuery "TS-1") "good-token" "u1" "TS-1")
    as [H1 H2]; try reflexivity; try discriminate.
  split.
  - apply H1; [exact I | reflexivity | reflexivity].
  - apply (H2 "JSON object requested, multiple (or no) rows returned");
      reflexivity.
Defined.

Lemma connection_reference_can_mask_not_found_witness :
  Resolver.firebaseAuth Stub.verify Samples.emptyRtdb
    (Samples.viaQuery "Decoding Firebase")
  = Resolver.Rejected 401 "Invalid or expired auth token".
Proof.
  apply (connection_reference_can_mask_not_found Stub.verify Samples.emptyRtdb
           (Samples.viaQuery "Decoding Firebase") "good-token" "u1"
           "Decoding Firebase");
    try reflexivity; discriminate.
Defined.

(** ** The POST route behind its payload schema *)

(** The schema lists exactly the fields the handler's filter allows. *)
Lemma numberKeys_allowedFields : numberKeys = allowedFields.
Proof. reflexivity. Qed.

Section SchemaFacts.

Context {World : Type}.
Variable Date_now : World -> Z.
Variable http_post :
  TradovateAuth -> string -> JsObj -> World ->
  Outcome UpdateUserAutoLiqResponse * World.
Variable toNumber : string -> option Z.

Local Abbreviation field := (field toNumber).
Local Abbreviation SetRiskPayload := (SetRiskPayload toNumber).
Local Abbreviation postRiskHandler := (postRiskHandler Date_now http_post).
Local Abbreviation postRiskValidated :=
  (postRiskValidated Date_now http_post toNumber).

(** No key of the schema admits [null]. *)
Lemma field_null (k : string) : field k VNull = None.
Proof.
  unfold Schema.field. destruct (String.eqb k "connectionRef"); [reflexivity|].
  destruct (bool_decide (k ∈ numberKeys)); reflexivity.
Qed.

Lemma field_unknown (k : string) (v : JsVal) :
  k <> "connectionRef" -> k ∉ numberKeys -> field k v = None.
Proof.
  intros Hc Hn. unfold Schema.field.
  destruct (String.eqb_spec k "connectionRef"); [contradiction|].
  rewrite bool_decide_eq_false_2 by exact Hn. reflexivity.
Qed.

(** One refused key is enough for the body to be refused. *)
Lemma SetRiskPayload_refuses (body : JsObj) (k : string) (v : JsVal) :
  body !! k = Some v -> field k v = None -> SetRiskPayload body = None.
Proof.
  intros Hk Hf. unfold Schema.SetRiskPayload.
  destruct (body !! "connectionRef"); [|reflexivity].
  destruct (forallb _ _) eqn:Hall; [|reflexivity].
  rewrite forallb_forall in Hall.
  specialize (Hall (k, v)). cbn [fst snd] in Hall.
  rewrite Hf in Hall.
  assert (Hin : In (k, v) (map_to_list body)).
  { apply list_elem_of_In, elem_of_map_to_list, Hk. }
  specialize (Hall Hin). apply bool_decide_eq_true_1 in Hall.
  destruct Hall as [x Hx]. discriminate.
Qed.

Lemma SetRiskPayload_lookup (body validated : JsObj) (k : string) :
  SetRiskPayload body = Some validated ->
  validated !! k = body !! k ≫= field k.
Proof.
  unfold Schema.SetRiskPayload.
  destruct (body !! "connectionRef"); [|discriminate].
  destruct (forallb _ _); [|discriminate].
  intros [= <-]. apply map_lookup_imap.
Qed.

Lemma postRiskValidated_refused auth accountId (body : JsObj) (s : @State World) :
  SetRiskPayload body = None ->
  postRiskValidated auth accountId body s = (SchemaRejected, s).
Proof. intros H. unfold Schema.postRiskValidated. rewrite H. reflexivity. Qed.

(** C10 (as amended): the filter keeps an allow-listed field exactly when
    its value is neither [null] nor [undefined], so a field sent as
    [null] is never in the body that goes downstream; and on the route a
    body with a [null] risk field does not get that far: the payload
    schema refuses it and the state is untouched (no downstream call).
    The empty-field 400 is the answer to a body the schema accepts and
    that carries no risk field. *)
Theorem null_risk_field_never_forwarded
    auth accountId (body : JsObj) (s : @State World) :
  (forall k x, pickAllowed body !! k = Some x <->
     k ∈ allowedFields /\ body !! k = Some x /\ notNullish x = true)
  /\ (forall k, k ∈ allowedFields -> body !! k = Some VNull ->
      updateBody accountId (pickAllowed body) !! k = None)
  /\ (forall k, k ∈ allowedFields -> body !! k = Some VNull ->
      postRiskValidated auth accountId body s = (SchemaRejected, s))
  /\ (forall validated,
        SetRiskPayload body = Some validated ->
        (forall k, k ∈ allowedFields -> body !! k = None) ->
        postRiskValidated auth accountId body s
        = (Handled (Returned noValidParameters), s)).
Proof.
  destruct (postRiskHandler_null_is_absent Date_now http_post auth accountId body s)
    as (Hfilter & Hnull & _).
  split; [exact Hfilter|]. split; [exact Hnull|]. split.
  - intros k _ Hk. apply postRiskValidated_refused.
    apply (SetRiskPayload_refuses body k VNull Hk), field_null.
  - intros validated Hv Hnone. unfold Schema.postRiskValidated. rewrite Hv.
    rewrite postRiskHandler_empty; [reflexivity|].
    apply pickAllowed_all_nullish. intros k Hk.
    unfold getProp. rewrite (SetRiskPayload_lookup body validated k Hv).
    rewrite (Hnone k Hk). reflexivity.
Qed.

(** X22: [setDailyLimits] issues exactly one update call whose body is
    the account id, the two limits and [doNotUnlock] ([true] when the
    last argument is omitted).  The POST route cannot send that flag: a
    body with a [doNotUnlock] key is refused by the payload schema, the
    handler does not run and nothing goes downstream. *)
Theorem setDailyLimits_flag_not_settable_by_route
    auth accountId (loss profit : Z) (keepClosed : option bool) (s : @State World) :
  calls (snd (setDailyLimits http_post auth accountId loss profit keepClosed s))
  = (calls s ++
     [CallPost auth "/userAccountAutoLiq/updateuserautoliq"
        {[ "accountId" := VNum accountId;
           "dailyLossAutoLiq" := VNum loss;
           "dailyProfitAutoLiq" := VNum profit;
           "doNotUnlock" := VBool (default true keepClosed) ]}])%list
  /\ (forall (body : JsObj) (v : JsVal),
        body !! "doNotUnlock" = Some v ->
        postRiskValidated auth accountId body s = (SchemaRejected, s)).
Proof.
  split.
  - unfold setDailyLimits. rewrite setAutoLiqSettings_calls. reflexivity.
  - intros body v Hk. apply postRiskValidated_refused.
    apply (SetRiskPayload_refuses body "doNotUnlock" v Hk).
    apply field_unknown; [discriminate|].
    unfold numberKeys. rewrite !not_elem_of_cons.
    repeat split; try discriminate. apply not_elem_of_nil.
Qed.

End SchemaFacts.

(** C10, as stated, fails on the route: a body whose two limits are
    [null] is refused by the payload schema, not answered with the
    empty-field error; and a body with one [null] limit is refused as
    well, where the same body without that field is written. *)
Lemma route_refuses_null_fields :
  let route :=
    postRiskValidated Stub.now (Stub.post (Returned Stub.ownerShape))
      Samples.decimalText Stub.auth 42 in
  route Samples.allNull Stub.fresh = (SchemaRejected, Stub.fresh)
  /\ route Samples.allNull Stub.fresh
     <> (Handled (Returned noValidParameters), Stub.fresh)
  /\ route Samples.oneNull Stub.fresh = (SchemaRejected, Stub.fresh)
  /\ fst (route Samples.oneNullLeftOut Stub.fresh)
     = Handled (Returned (ok (RiskSetOk Stub.writtenRecord))).
Proof.
  cbv zeta.
  assert (H1 : postRiskValidated Stub.now (Stub.post (Returned Stub.ownerShape))
                 Samples.decimalText Stub.auth 42 Samples.allNull Stub.fresh
               = (SchemaRejected, Stub.fresh)) by (vm_compute; reflexivity).
  assert (H2 : postRiskValidated Stub.now (Stub.post (Returned Stub.ownerShape))
                 Samples.decimalText Stub.auth 42 Samples.oneNull Stub.fresh
               = (SchemaRejected, Stub.fresh)) by (vm_compute; reflexivity).
  rewrite H1, H2.
  split; [reflexivity|]. split; [discriminate|]. split; [reflexivity|].
  vm_compute. reflexivity.
Qed.

Lemma null_risk_field_never_forwarded_witness :
  postRiskValidated Stub.now (Stub.post (Returned Stub.ownerShape))
    Samples.decimalText Stub.auth 42 Samples.oneNull Stub.fresh
  = (SchemaRejected, Stub.fresh)
  /\ updateBody 42 (pickAllowed Samples.oneNull) !! "dailyLossAutoLiq" = None
  /\ postRiskValidated Stub.now (Stub.post (Returned Stub.ownerShape))
       Samples.decimalText Stub.auth 42 Samples.refOnly Stub.fresh
     = (Handled (Returned noValidParameters), Stub.fresh).
Proof.
  destruct (null_risk_field_never_forwarded Stub.now
              (Stub.post (Returned Stub.ownerShape)) Samples.decimalText
              Stub.auth 42 Samples.oneNull Stub.fresh) as (_ & Hbody & Hroute & _).
  destruct (null_risk_field_never_forwarded Stub.now
              (Stub.post (Returned Stub.ownerShape)) Samples.decimalText
              Stub.auth 42 Samples.refOnly Stub.fresh) as (_ & _ & _ & Hempty).
  assert (Hin : "dailyLossAutoLiq" ∈ allowedFields)
    by (unfold allowedFields; apply list_elem_of_here).
  split; [|split].
  - apply (Hroute "dailyLossAutoLiq" Hin). reflexivity.
  - apply (Hbody "dailyLossAutoLiq" Hin). reflexivity.
  - apply (Hempty Samples.refOnly).
    + vm_compute. reflexivity.
    + intros k Hk. unfold allowedFields in Hk.
      repeat (apply elem_of_cons in Hk as [->|Hk]; [reflexivity|]).
      apply not_elem_of_nil in Hk. destruct Hk.
Defined.

Lemma setDailyLimits_flag_not_settable_by_route_witness :
  calls (snd (setDailyLimits (Stub.post (Returned Stub.ownerShape))
                Stub.auth 42 500 1000 None Stub.fresh))
  = [CallPost Stub.auth "/userAccountAutoLiq/updateuserautoliq"
       {[ "accountId" := VNum 42;
          "dailyLossAutoLiq" := VNum 500;
          "dailyProfitAutoLiq" := VNum 1000;
          "doNotUnlock" := VBool true ]}]
  /\ postRiskValidated Stub.now (Stub.post (Returned Stub.ownerShape))
       Samples.decimalText Stub.auth 42 Samples.withFlag Stub.fresh
     = (SchemaRejected, Stub.fresh).
Proof.
  destruct (setDailyLimits_flag_not_settable_by_route Stub.now
              (Stub.post (Returned Stub.ownerShape)) Samples.decimalText
              Stub.auth 42 500 1000 None Stub.fresh) as [Hcall Hroute].
  split.
  - exact Hcall.
  - apply (Hroute Samples.withFlag (VBool true)). reflexivity.
Defined.

Lemma express_missing_connectionRef_witness :
  Resolver.firebaseAuth Stub.verify (Samples.rtdbOf Samples.fullRow)
    Samples.emptyInPayload
  = Resolver.Rejected 400
      "Missing connectionRef (in body, query param, or X-Connection-Ref header)".
Proof.
  apply (express_missing_connectionRef Stub.verify
           (Samples.rtdbOf Samples.fullRow) Samples.emptyInPayload
           "good-token" "u1").
  - reflexivity.
  - discriminate.
  - reflexivity.
  - left. reflexivity.
Defined.

Lemma authenticated_client_is_the_stored_credential_witness :
  Resolver.authPlugin Stub.verify (Samples.tableOf Samples.fullRow)
    (Samples.viaQuery "TS-1")
  = Resolver.Authenticated "u1" "TS-1"
      (fromToken "https://live.tradovateapi.com/v1" "tdv-token")
  /\ Stub.verify (slice "Bearer good-token" 7) = Returned "u1"
  /\ exists row,
       Samples.tableOf Samples.fullRow "u1" "TS-1"
       = Resolver.mkSingle (Some row) None
       /\ Resolver.token row = Some "tdv-token".
Proof.
  assert (Hrun : Resolver.authPlugin Stub.verify (Samples.tableOf Samples.fullRow)
                   (Samples.viaQuery "TS-1")
                 = Resolver.Authenticated "u1" "TS-1"
                     (fromToken "https://live.tradovateapi.com/v1" "tdv-token"))
    by reflexivity.
  destruct (authenticated_client_is_the_stored_credential Stub.verify
              (Samples.tableOf Samples.fullRow) (Samples.rtdbOf Samples.fullRow)
              (Samples.viaQuery "TS-1") "u1" "TS-1"
              (fromToken "https://live.tradovateapi.com/v1" "tdv-token"))
    as [H _].
  destruct (H eq_refl Hrun) as ((h & Ha & _ & Hv) & _ & _ & _ & _ & (row & Hrow & Ht & _)).
  injection Ha as <-.
  split; [exact Hrun|]. split; [exact Hv|]. exists row. split; assumption.
Defined.
